(** * ZonedAsyncPipe (src/zone-async.pipe.ts)

    A shallow embedding of the pipe class: its four private fields, its
    methods [ngOnDestroy], [transform], [_subscribe], [_dispose] and
    [_updateLatestValue], the two closures handed to [obj.subscribe], and the
    small part of the surroundings the methods talk to: the zone the code is
    running in, the change detector, and the observable being subscribed,
    which may push values, complete or signal an error while [subscribe]
    runs and deliver more afterwards.

    Methods are computations in a reader/state/exception monad [M]:
    the reader part is the zone the code currently runs in, the state part is
    the pipe object together with a trace of the calls made to the outside,
    and the exception part is a JavaScript [throw]. *)

From Stdlib Require Import String ZArith List Bool Arith Lia.
Import ListNotations.

(** ** JavaScript values held by the [any]-typed fields *)

(** The only operation the pipe applies to a value is [===].  Numbers are
    kept as integers, plus the two numbers on which [===] is not identity:
    [-0], which equals [0], and [NaN], which equals nothing. *)
Inductive JsValue : Type :=
| JNull
| JUndefined
| JBoolean (b : bool)
| JNumber (z : Z)
| JNegZero
| JNaN
| JString (s : string)
| JObject (ref : nat).

(** [a === b]: primitives by value, objects by reference; [0 === -0] holds
    and [NaN === NaN] does not. *)
Definition strict_equals (a b : JsValue) : bool :=
  match a, b with
  | JNull, JNull => true
  | JUndefined, JUndefined => true
  | JBoolean x, JBoolean y => Bool.eqb x y
  | JNumber x, JNumber y => Z.eqb x y
  | JNumber x, JNegZero => Z.eqb x 0
  | JNegZero, JNumber y => Z.eqb y 0
  | JNegZero, JNegZero => true
  | JString x, JString y => String.eqb x y
  | JObject x, JObject y => Nat.eqb x y
  | _, _ => false
  end.

Definition is_null (v : JsValue) : bool :=
  match v with JNull => true | _ => false end.

(** An [Observable] and an [ISubscription] are objects; they are compared by
    reference only, so each is represented by its reference. *)
Definition Observable : Type := nat.
Definition Subscription : Type := nat.

(** [obj !== this._obj] on [Observable | null | undefined] operands. *)
Definition not_identical (a b : option Observable) : bool :=
  match a, b with
  | Some x, Some y => negb (Nat.eqb x y)
  | None, None => false
  | _, _ => true
  end.

(** What [transform] hands back: the bare value, or
    [WrappedValue.wrap(value)]. *)
Inductive Rendered : Type :=
| Plain (v : JsValue)
| Wrapped (v : JsValue).

Definition unwrap (r : Rendered) : JsValue :=
  match r with Plain v => v | Wrapped v => v end.

Definition is_wrapped (r : Rendered) : bool :=
  match r with Plain _ => false | Wrapped _ => true end.

(** ** The pipe object *)

Record Pipe : Type := mkPipe {
  _latestValue : JsValue;
  _latestReturnedValue : JsValue;
  _subscription : option Subscription;
  _obj : option Observable
}.

(** Field initialisers of the class. *)
Definition new_pipe : Pipe :=
  {| _latestValue := JNull;
     _latestReturnedValue := JNull;
     _subscription := None;
     _obj := None |}.

(** ** Zones and the trace of outside calls *)

(** [Tracked] is the Angular zone, [Untracked] is anything outside it. *)
Inductive Ctx : Type := Tracked | Untracked.

Definition ctx_eqb (a b : Ctx) : bool :=
  match a, b with
  | Tracked, Tracked | Untracked, Untracked => true
  | _, _ => false
  end.

Inductive Event : Type :=
| EvSubscribe (c : Ctx) (obj : Observable) (h : Subscription)
    (* [obj.subscribe(..)] was called while running in zone [c] and
       produced the subscription [h] *)
| EvUnsubscribe (h : Subscription)
    (* [h.unsubscribe()] *)
| EvMarkForCheck (c : Ctx)
    (* [this._ref.markForCheck()] was called while running in zone [c] *)
| EvErrorSignalled (h : Subscription)
    (* the producer behind [h] signalled an error *)
| EvCompleted (h : Subscription).
    (* the producer behind [h] completed *)

Record World : Type := mkWorld {
  pipe : Pipe;
  next_handle : Subscription;   (* reference of the next subscription object *)
  log : list Event              (* oldest first *)
}.

Definition new_world : World :=
  {| pipe := new_pipe; next_handle := 0; log := [] |}.

(** ** The monad *)

Inductive Exn : Type :=
| TypeError                  (* a method was called on [null] *)
| Thrown (e : JsValue).      (* [throw e] *)

Inductive Result (A : Type) : Type :=
| Ok (a : A)
| Throw (x : Exn)
| OutOfFuel.

Arguments Ok {A} a.
Arguments Throw {A} x.
Arguments OutOfFuel {A}.

Definition M (A : Type) : Type := Ctx -> World -> World * Result A.

Definition ret {A} (a : A) : M A := fun _ w => (w, Ok a).

Definition bind {A B} (m : M A) (k : A -> M B) : M B :=
  fun c w =>
    match m c w with
    | (w', Ok a) => k a c w'
    | (w', Throw x) => (w', Throw x)
    | (w', OutOfFuel) => (w', OutOfFuel)
    end.

Definition throw {A} (x : Exn) : M A := fun _ w => (w, Throw x).

Declare Scope pipe_scope.
Delimit Scope pipe_scope with pipe.
Notation "x <- m ;; k" := (bind m (fun x => k))
  (at level 61, m at next level, right associativity) : pipe_scope.
Notation "m ;; k" := (bind m (fun _ => k))
  (at level 61, right associativity) : pipe_scope.
Local Open Scope pipe_scope.

Definition this : M Pipe := fun _ w => (w, Ok (pipe w)).

Definition current_zone : M Ctx := fun c w => (w, Ok c).

Definition update_pipe (f : Pipe -> Pipe) : M unit :=
  fun _ w =>
    ({| pipe := f (pipe w); next_handle := next_handle w; log := log w |},
     Ok tt).

Definition record (e : Event) : M unit :=
  fun _ w =>
    ({| pipe := pipe w; next_handle := next_handle w; log := log w ++ [e] |},
     Ok tt).

Definition fresh_subscription : M Subscription :=
  fun _ w =>
    ({| pipe := pipe w; next_handle := S (next_handle w); log := log w |},
     Ok (next_handle w)).

(** Field assignments. *)
Definition set_latestValue (v : JsValue) (p : Pipe) : Pipe :=
  {| _latestValue := v;
     _latestReturnedValue := _latestReturnedValue p;
     _subscription := _subscription p;
     _obj := _obj p |}.

Definition set_latestReturnedValue (v : JsValue) (p : Pipe) : Pipe :=
  {| _latestValue := _latestValue p;
     _latestReturnedValue := v;
     _subscription := _subscription p;
     _obj := _obj p |}.

Definition set_subscription (s : option Subscription) (p : Pipe) : Pipe :=
  {| _latestValue := _latestValue p;
     _latestReturnedValue := _latestReturnedValue p;
     _subscription := s;
     _obj := _obj p |}.

Definition set_obj (o : option Observable) (p : Pipe) : Pipe :=
  {| _latestValue := _latestValue p;
     _latestReturnedValue := _latestReturnedValue p;
     _subscription := _subscription p;
     _obj := o |}.

(** [ngZone.run(f)] and [ngZone.runOutsideAngular(f)]: [f] runs at once,
    inside respectively outside the Angular zone, whatever the zone of the
    caller, and its result or exception is passed on. *)
Definition run {A} (f : M A) : M A := fun _ w => f Tracked w.

Definition runOutsideAngular {A} (f : M A) : M A := fun _ w => f Untracked w.

(** [this._ref.markForCheck()] *)
Definition markForCheck : M unit :=
  c <- current_zone ;; record (EvMarkForCheck c).

(** [h.unsubscribe()] *)
Definition unsubscribe (h : Subscription) : M unit :=
  record (EvUnsubscribe h).

Fixpoint for_each {A} (xs : list A) (f : A -> M unit) : M unit :=
  match xs with
  | [] => ret tt
  | x :: rest => f x ;; for_each rest f
  end.

(** How an observable leaves a new subscriber when [subscribe] is over. *)
Inductive SyncEnd : Type :=
| StaysOpen                  (* a timer, a subject: more may come later *)
| Completes                  (* [Observable.of(..)], [Observable.empty()] *)
| Fails (e : JsValue).       (* [Observable.throw(e)] *)

Definition end_events (se : SyncEnd) (h : Subscription) : list Event :=
  match se with
  | StaysOpen => []
  | Completes => [EvCompleted h]
  | Fails _ => [EvErrorSignalled h]
  end.

Section Pipe.

(** The values an observable pushes to a new subscriber before [subscribe]
    returns (none for a timer or a plain subject, the current value for a
    replaying subject, all of them for [Observable.of]), and how it leaves
    the subscriber after them. *)
Variable sync_emissions : Observable -> list JsValue.
Variable sync_end : Observable -> SyncEnd.

Definition sync_error (obj : Observable) : option JsValue :=
  match sync_end obj with
  | Fails e => Some e
  | _ => None
  end.

(** [obj.subscribe(next, error)] of rxjs 5: a new subscriber is made, the
    synchronous values are pushed to [next] in the caller's zone, then the
    observable may complete or signal an error to [error]; what [error]
    throws during the call is thrown by [subscribe] itself, otherwise the
    subscriber is returned as the subscription. *)
Definition subscribe (obj : Observable)
    (next : JsValue -> M unit) (error : JsValue -> M unit)
  : M Subscription :=
  h <- fresh_subscription ;;
  c <- current_zone ;;
  record (EvSubscribe c obj h) ;;
  for_each (sync_emissions obj) next ;;
  match sync_end obj with
  | StaysOpen => ret tt
  | Completes => record (EvCompleted h)
  | Fails e => record (EvErrorSignalled h) ;; error e
  end ;;
  ret h.

(** ** The methods of the class *)

(** Lines 99-104. *)
Definition _updateLatestValue (async : Observable) (value : JsValue)
  : M unit :=
  p <- this ;;
  if not_identical (Some async) (_obj p) then ret tt
  else
    update_pipe (set_latestValue value) ;;
    markForCheck.

(** Line 85: [value => this.ngZone.run(() => this._updateLatestValue(obj, value))] *)
Definition next_callback (obj : Observable) (value : JsValue) : M unit :=
  run (_updateLatestValue obj value).

(** Line 86: [e => { throw e; }] *)
Definition error_callback (e : JsValue) : M unit :=
  throw (Thrown e).

(** Lines 76-89. *)
Definition _subscribe (obj : Observable) : M unit :=
  update_pipe (set_obj (Some obj)) ;;
  h <- runOutsideAngular
         (subscribe obj (next_callback obj) error_callback) ;;
  update_pipe (set_subscription (Some h)).

(** Lines 91-97. *)
Definition _dispose : M unit :=
  p <- this ;;
  match _subscription p with
  | None => throw TypeError
  | Some h =>
      unsubscribe h ;;
      update_pipe (set_latestValue JNull) ;;
      update_pipe (set_latestReturnedValue JNull) ;;
      update_pipe (set_subscription None) ;;
      update_pipe (set_obj None)
  end.

(** Lines 45-49. *)
Definition ngOnDestroy : M unit :=
  p <- this ;;
  match _subscription p with
  | Some _ => _dispose
  | None => ret tt
  end.

(** Lines 54-74.  The method calls itself after disposing; [fuel] bounds the
    depth of that recursion. *)
Fixpoint transform_rec (fuel : nat) (obj : option Observable) : M Rendered :=
  match fuel with
  | O => fun _ w => (w, OutOfFuel)
  | S fuel' =>
      p <- this ;;
      match _obj p with
      | None =>
          match obj with
          | Some o => _subscribe o
          | None => ret tt
          end ;;
          p1 <- this ;;
          update_pipe (set_latestReturnedValue (_latestValue p1)) ;;
          p2 <- this ;;
          ret (Plain (_latestValue p2))
      | Some _ =>
          if not_identical obj (_obj p) then
            _dispose ;;
            transform_rec fuel' obj
          else if strict_equals (_latestValue p) (_latestReturnedValue p) then
            ret (Plain (_latestReturnedValue p))
          else
            update_pipe (set_latestReturnedValue (_latestValue p)) ;;
            p1 <- this ;;
            ret (Wrapped (_latestValue p1))
      end
  end.

(** Two levels are all the method ever uses (see [transform_rec_fuel]). *)
Definition transform (obj : option Observable) : M Rendered :=
  transform_rec 2 obj.

(** ** The producer side *)

Inductive Notification : Type :=
| NextN (v : JsValue)
| ErrorN (e : JsValue)
| CompleteN.

(** The observable that [subscribe] was called on to obtain [h]. *)
Fixpoint producer_of (h : Subscription) (l : list Event)
  : option Observable :=
  match l with
  | [] => None
  | EvSubscribe _ obj h' :: rest =>
      if Nat.eqb h h' then Some obj else producer_of h rest
  | _ :: rest => producer_of h rest
  end.

(** The closures registered with subscription [h] are called with a
    notification, in zone [c] of the caller; the pipe registers none for
    completion.  Nothing is checked here, so this covers more than rxjs
    ever does: what holds of every [deliver] holds of every real delivery. *)
Definition deliver (h : Subscription) (n : Notification) : M unit :=
  fun c w =>
    match producer_of h (log w) with
    | None => (w, Ok tt)
    | Some obj =>
        match n with
        | NextN v => next_callback obj v c w
        | ErrorN e => (record (EvErrorSignalled h) ;; error_callback e) c w
        | CompleteN => record (EvCompleted h) c w
        end
    end.

Definition closes (h : Subscription) (e : Event) : bool :=
  match e with
  | EvUnsubscribe h' => Nat.eqb h h'
  | EvErrorSignalled h' => Nat.eqb h h'
  | EvCompleted h' => Nat.eqb h h'
  | _ => false
  end.

(** [h] has been subscribed and not been unsubscribed, ended by an error or
    completed since. *)
Definition live (h : Subscription) (l : list Event) : bool :=
  match producer_of h l with
  | None => false
  | Some _ => negb (existsb (closes h) l)
  end.

(** The deliveries rxjs makes: its [Subscriber] passes a notification on
    only while it is live, and an error or a completion ends it. *)
Definition notify (h : Subscription) (n : Notification) : M unit :=
  fun c w =>
    if live h (log w) then deliver h n c w else (w, Ok tt).

(** ** Operations of the host and of producers *)

Inductive Op : Type :=
| OpRender (obj : option Observable)             (* [transform(obj)] *)
| OpDestroy                                      (* [ngOnDestroy()] *)
| OpDeliver (h : Subscription) (n : Notification).

Definition step (c : Ctx) (op : Op) (w : World) : World :=
  match op with
  | OpRender obj => fst (transform obj c w)
  | OpDestroy => fst (ngOnDestroy c w)
  | OpDeliver h n => fst (deliver h n c w)
  end.

Inductive reachable : World -> Prop :=
| reach_new : reachable new_world
| reach_step c op w : reachable w -> reachable (step c op w).

(** The operations that rxjs and the host really perform: a delivery only
    through a live subscription. *)
Definition legal (op : Op) (w : World) : bool :=
  match op with
  | OpDeliver h _ => live h (log w)
  | _ => true
  end.

(** What a successful or failed [subscribe] adds to the trace. *)
Definition subscribe_trace (obj : Observable) (h : Subscription)
  : list Event :=
  EvSubscribe Untracked obj h
    :: repeat (EvMarkForCheck Tracked) (length (sync_emissions obj))
    ++ end_events (sync_end obj) h.


(** ** Well-formed and stuck worlds *)

(** The pipe is either bound (source and subscription both present) or
    unbound with both cached values cleared. *)
Definition binding_ok (p : Pipe) : bool :=
  match _obj p, _subscription p with
  | Some _, Some _ => true
  | None, None => is_null (_latestValue p) && is_null (_latestReturnedValue p)
  | _, _ => false
  end.

(** Every subscription mentioned in the trace was handed out already. *)
Definition known (n : Subscription) (e : Event) : bool :=
  match e with
  | EvSubscribe _ _ h => Nat.ltb h n
  | EvUnsubscribe h => Nat.ltb h n
  | EvErrorSignalled h => Nat.ltb h n
  | EvCompleted h => Nat.ltb h n
  | EvMarkForCheck _ => true
  end.

Arguments known : simpl never.

(** Subscribing happens outside the Angular zone, refresh requests inside. *)
Definition zone_ok (e : Event) : bool :=
  match e with
  | EvSubscribe c _ _ => ctx_eqb c Untracked
  | EvMarkForCheck c => ctx_eqb c Tracked
  | _ => true
  end.

Definition drop_handle (h : Subscription) (hs : list Subscription)
  : list Subscription :=
  filter (fun h' => negb (Nat.eqb h h')) hs.

Definition track (hs : list Subscription) (e : Event) : list Subscription :=
  match e with
  | EvSubscribe _ _ h => hs ++ [h]
  | EvUnsubscribe h => drop_handle h hs
  | _ => hs
  end.

(** The subscriptions made and not yet unsubscribed, oldest first. *)
Definition active_subs (l : list Event) : list Subscription :=
  fold_left track l [].

Arguments active_subs : simpl never.

(** The subscribe calls made inside the Angular zone: whatever a producer
    schedules from there is work the zone waits for before it reports
    itself stable. *)
Definition tracked_subscribe (e : Event) : bool :=
  match e with
  | EvSubscribe Tracked _ _ => true
  | _ => false
  end.

Definition pending_in_zone (l : list Event) : list Event :=
  filter tracked_subscribe l.

(** Whether a call ended by handing back a wrapped value. *)
Definition is_wrapped_result (r : Result Rendered) : bool :=
  match r with
  | Ok x => is_wrapped x
  | _ => false
  end.

(** The number of [markForCheck] calls made so far. *)
Definition is_refresh (e : Event) : bool :=
  match e with
  | EvMarkForCheck _ => true
  | _ => false
  end.

Definition refresh_requests (l : list Event) : nat :=
  length (filter is_refresh l).

Definition opt_obs_eqb (a b : option Observable) : bool :=
  negb (not_identical a b).

(** The only active subscription is the one the pipe holds, and it was
    obtained from the observable the pipe is bound to. *)
Definition holder_ok (w : World) : bool :=
  match active_subs (log w), _subscription (pipe w) with
  | [], None => true
  | [h], Some h' =>
      Nat.eqb h h' && opt_obs_eqb (producer_of h (log w)) (_obj (pipe w))
  | _, _ => false
  end.

Definition wfb (w : World) : bool :=
  binding_ok (pipe w)
  && forallb (known (next_handle w)) (log w)
  && forallb zone_ok (log w)
  && holder_ok w.

Definition wf (w : World) : Prop := wfb w = true.

(** The state a [subscribe] that threw leaves behind: a source without a
    subscription, the subscriber of the failed call ended but never
    unsubscribed by the pipe. *)
Definition stuck (w : World) : bool :=
  match _obj (pipe w), _subscription (pipe w) with
  | Some _, None =>
      forallb (known (next_handle w)) (log w)
      && forallb zone_ok (log w)
      && match active_subs (log w) with
         | [h] => existsb (closes h) (log w)
         | _ => false
         end
  | _, _ => false
  end.

(** A world is well formed until a [subscribe] throws, and stuck from then
    on. *)
Definition settled (w : World) : Prop := wf w \/ stuck w = true.

(** The invariant of the data model, on its own. *)
Definition handle_iff_source (p : Pipe) : Prop :=
  _subscription p = None <-> _obj p = None.

(** ** Runs of real operations *)

(** A step as it really happens: deliveries go through the subscriber. *)
Definition real_step (c : Ctx) (op : Op) (w : World) : World :=
  match op with
  | OpDeliver h n => fst (notify h n c w)
  | _ => step c op w
  end.

Definition run_ops (ops : list (Ctx * Op)) (w : World) : World :=
  fold_left (fun w' co => real_step (fst co) (snd co) w') ops w.

(** The operations that leave the pipe bound to [p]: it is rendered with
    [p] again, or something is delivered. *)
Definition keeps_binding (p : option Observable) (op : Op) : bool :=
  match op with
  | OpRender obj => opt_obs_eqb obj p
  | OpDestroy => false
  | OpDeliver _ _ => true
  end.

(** ** Sample producers *)

(** Observables that push nothing while being subscribed (a timer, a plain
    subject). *)
Definition quiet : Observable -> list JsValue := fun _ => [].

(** Observables that stay open after [subscribe], and observables that
    signal [e] during it ([Observable.throw(e)]). *)
Definition open_ended : Observable -> SyncEnd := fun _ => StaysOpen.

Definition failing (e : JsValue) : Observable -> SyncEnd := fun _ => Fails e.

(** Observables that push [v] to every new subscriber at once (a replaying
    subject, [Observable.of(v)]). *)
Definition replaying (v : JsValue) : Observable -> list JsValue :=
  fun _ => [v].

(** ** What each method computes *)

Ltac run_monad :=
  unfold bind, this, update_pipe, record, fresh_subscription, current_zone,
    markForCheck, unsubscribe, ret, throw, run, runOutsideAngular; cbn.

Ltac fields :=
  cbn [pipe next_handle log _latestValue _latestReturnedValue _subscription
       _obj set_latestValue set_latestReturnedValue set_subscription set_obj
       new_pipe new_world fst snd length repeat last].

Lemma not_identical_same (o : Observable) :
  not_identical (Some o) (Some o) = false.
Proof. cbn. now rewrite Nat.eqb_refl. Qed.

Lemma not_identical_false (a b : option Observable) :
  not_identical a b = false <-> a = b.
Proof.
  destruct a as [x|], b as [y|]; cbn; split; intros H;
    try discriminate; try reflexivity.
  - apply negb_false_iff, Nat.eqb_eq in H. now subst.
  - injection H as ->. now rewrite Nat.eqb_refl.
Qed.

Lemma not_identical_true (a b : option Observable) :
  not_identical a b = true <-> a <> b.
Proof.
  split.
  - intros H E. apply not_identical_false in E. congruence.
  - intros H. destruct (not_identical a b) eqn:E; [reflexivity|].
    apply not_identical_false in E. contradiction.
Qed.

Lemma opt_obs_dec (a b : option Observable) : {a = b} + {a <> b}.
Proof. decide equality. apply Nat.eq_dec. Qed.

(** The guard of [_updateLatestValue] passes: the value is cached and a
    refresh is requested, in this order and in the zone of the call. *)
Lemma updateLatestValue_bound (obj : Observable) v c w :
  _obj (pipe w) = Some obj ->
  _updateLatestValue obj v c w =
    ({| pipe := set_latestValue v (pipe w);
        next_handle := next_handle w;
        log := log w ++ [EvMarkForCheck c] |}, Ok tt).
Proof.
  intros H. unfold _updateLatestValue, bind at 1, this.
  rewrite H, not_identical_same. reflexivity.
Qed.

(** The guard fails: nothing happens. *)
Lemma updateLatestValue_stale (async : Observable) v c w :
  _obj (pipe w) <> Some async ->
  _updateLatestValue async v c w = (w, Ok tt).
Proof.
  intros H. unfold _updateLatestValue, bind at 1, this.
  assert (E : not_identical (Some async) (_obj (pipe w)) = true)
    by (apply not_identical_true; congruence).
  now rewrite E.
Qed.

Lemma next_callback_bound (obj : Observable) v c w :
  _obj (pipe w) = Some obj ->
  next_callback obj v c w =
    ({| pipe := set_latestValue v (pipe w);
        next_handle := next_handle w;
        log := log w ++ [EvMarkForCheck Tracked] |}, Ok tt).
Proof. intros H. unfold next_callback, run. now apply updateLatestValue_bound. Qed.

Lemma next_callback_stale (async : Observable) v c w :
  _obj (pipe w) <> Some async ->
  next_callback async v c w = (w, Ok tt).
Proof. intros H. unfold next_callback, run. now apply updateLatestValue_stale. Qed.

(** The synchronous part of a subscription: every value passes the guard,
    the last one stays cached, one refresh request per value. *)
Lemma for_each_next_callback (obj : Observable) vs : forall c w,
  _obj (pipe w) = Some obj ->
  for_each vs (next_callback obj) c w =
    ({| pipe := set_latestValue (last vs (_latestValue (pipe w))) (pipe w);
        next_handle := next_handle w;
        log := log w ++ repeat (EvMarkForCheck Tracked) (length vs) |},
     Ok tt).
Proof.
  induction vs as [|v vs IH]; intros c w H.
  - destruct w as [[lv lr s o] nh lg]. cbn. unfold ret.
    now rewrite app_nil_r.
  - cbn [for_each]. unfold bind at 1.
    rewrite (next_callback_bound obj v c w H).
    rewrite IH by (cbn; exact H).
    destruct w as [[lv lr s o] nh lg]. cbn.
    rewrite <- app_assoc. cbn.
    replace (last vs v) with
      (match vs with [] => v | _ :: _ => last vs lv end);
      [reflexivity|].
    clear. destruct vs as [|x vs]; [reflexivity|].
    revert x. induction vs as [|y vs IH]; intros x; [reflexivity|].
    cbn in *. apply (IH y).
Qed.

(** [_subscribe]: the source is set and the pushed values are cached in any
    case; the subscription is stored only if [subscribe] returns, and an
    error signalled during the call leaves [_subscribe] as it was thrown. *)
Lemma subscribe_spec (obj : Observable) c w :
  _subscribe obj c w =
    (let p :=
       {| _latestValue := last (sync_emissions obj) (_latestValue (pipe w));
          _latestReturnedValue := _latestReturnedValue (pipe w);
          _subscription := _subscription (pipe w);
          _obj := Some obj |} in
     let l := log w ++ subscribe_trace obj (next_handle w) in
     match sync_error obj with
     | Some e =>
         ({| pipe := p; next_handle := S (next_handle w); log := l |},
          Throw (Thrown e))
     | None =>
         ({| pipe := set_subscription (Some (next_handle w)) p;
             next_handle := S (next_handle w); log := l |}, Ok tt)
     end).
Proof.
  unfold _subscribe, subscribe, subscribe_trace, sync_error. run_monad.
  rewrite for_each_next_callback by reflexivity. cbn.
  destruct (sync_end obj); cbn;
    rewrite <- ?app_assoc; cbn; rewrite ?app_nil_r; reflexivity.
Qed.

Lemma dispose_spec h c w :
  _subscription (pipe w) = Some h ->
  _dispose c w =
    ({| pipe := new_pipe;
        next_handle := next_handle w;
        log := log w ++ [EvUnsubscribe h] |}, Ok tt).
Proof. intros H. unfold _dispose. run_monad. rewrite H. reflexivity. Qed.

Lemma dispose_null c w :
  _subscription (pipe w) = None ->
  _dispose c w = (w, Throw TypeError).
Proof. intros H. unfold _dispose. run_monad. rewrite H. reflexivity. Qed.

(** [transform] on an unbound pipe, nothing given. *)
Lemma transform_unbound_absent n c w :
  _obj (pipe w) = None ->
  transform_rec (S n) None c w =
    ({| pipe := set_latestReturnedValue (_latestValue (pipe w)) (pipe w);
        next_handle := next_handle w;
        log := log w |},
     Ok (Plain (_latestValue (pipe w)))).
Proof.
  intros H. cbn [transform_rec]. unfold bind at 1, this.
  rewrite H. reflexivity.
Qed.

(** [transform] on an unbound pipe, an observable given. *)
Lemma transform_unbound_some n (o : Observable) c w :
  _obj (pipe w) = None ->
  transform_rec (S n) (Some o) c w =
    (let v := last (sync_emissions o) (_latestValue (pipe w)) in
     let l := log w ++ subscribe_trace o (next_handle w) in
     match sync_error o with
     | Some e =>
         ({| pipe := {| _latestValue := v;
                        _latestReturnedValue := _latestReturnedValue (pipe w);
                        _subscription := _subscription (pipe w);
                        _obj := Some o |};
             next_handle := S (next_handle w); log := l |},
          Throw (Thrown e))
     | None =>
         ({| pipe := {| _latestValue := v;
                        _latestReturnedValue := v;
                        _subscription := Some (next_handle w);
                        _obj := Some o |};
             next_handle := S (next_handle w); log := l |},
          Ok (Plain v))
     end).
Proof.
  intros H. cbn [transform_rec]. unfold bind at 1, this.
  rewrite H. unfold bind at 1. rewrite subscribe_spec. cbv zeta.
  destruct (sync_error o); reflexivity.
Qed.

(** [transform] with the observable the pipe is bound to. *)
Lemma transform_bound_same n (o : Observable) c w :
  _obj (pipe w) = Some o ->
  transform_rec (S n) (Some o) c w =
    if strict_equals (_latestValue (pipe w)) (_latestReturnedValue (pipe w))
    then (w, Ok (Plain (_latestReturnedValue (pipe w))))
    else ({| pipe := set_latestReturnedValue (_latestValue (pipe w)) (pipe w);
             next_handle := next_handle w;
             log := log w |},
          Ok (Wrapped (_latestValue (pipe w)))).
Proof.
  intros H. cbn [transform_rec]. unfold bind at 1, this.
  rewrite H, not_identical_same.
  destruct (strict_equals _ _); reflexivity.
Qed.

(** [transform] with anything else than the bound observable: dispose, then
    start over on the cleared pipe. *)
Lemma transform_rebind n obj (o : Observable) h c w :
  _obj (pipe w) = Some o ->
  obj <> Some o ->
  _subscription (pipe w) = Some h ->
  transform_rec (S n) obj c w =
    transform_rec n obj c
      {| pipe := new_pipe;
         next_handle := next_handle w;
         log := log w ++ [EvUnsubscribe h] |}.
Proof.
  intros H D Hs. cbn [transform_rec]. unfold bind at 1, this.
  rewrite H. apply not_identical_true in D. rewrite D.
  unfold bind at 1. rewrite (dispose_spec h c w Hs). reflexivity.
Qed.

(** Without a subscription to cancel, [_dispose] fails on [null]. *)
Lemma transform_rebind_null n obj (o : Observable) c w :
  _obj (pipe w) = Some o ->
  obj <> Some o ->
  _subscription (pipe w) = None ->
  transform_rec (S n) obj c w = (w, Throw TypeError).
Proof.
  intros H D Hs. cbn [transform_rec]. unfold bind at 1, this.
  rewrite H. apply not_identical_true in D. rewrite D.
  unfold bind at 1. rewrite (dispose_null c w Hs). reflexivity.
Qed.

Lemma transform_unbound_fuel n obj c w :
  _obj (pipe w) = None ->
  transform_rec (S n) obj c w = transform_rec 1 obj c w.
Proof.
  intros H. destruct obj as [o|].
  - now rewrite !transform_unbound_some.
  - now rewrite !transform_unbound_absent.
Qed.

(** The recursion of [transform] is at most one call deep: more fuel than
    two changes nothing, and two is enough to get a result. *)
Lemma transform_rec_fuel n obj c w :
  transform_rec (S (S n)) obj c w = transform obj c w.
Proof.
  unfold transform.
  destruct (_obj (pipe w)) as [o|] eqn:H.
  - destruct (opt_obs_dec obj (Some o)) as [->|D].
    + now rewrite !transform_bound_same.
    + destruct (_subscription (pipe w)) as [h|] eqn:Hs.
      * rewrite !(transform_rebind _ _ _ _ c w H D Hs).
        now apply transform_unbound_fuel.
      * now rewrite !(transform_rebind_null _ _ _ c w H D Hs).
  - rewrite transform_unbound_fuel by exact H.
    symmetry. now apply transform_unbound_fuel.
Qed.

Lemma transform_unbound_total obj c w :
  _obj (pipe w) = None -> snd (transform_rec 1 obj c w) <> OutOfFuel.
Proof.
  intros H. destruct obj as [o|].
  - rewrite transform_unbound_some by exact H. cbv zeta.
    destruct (sync_error o); discriminate.
  - rewrite transform_unbound_absent by exact H. discriminate.
Qed.

Lemma transform_total obj c w :
  snd (transform obj c w) <> OutOfFuel.
Proof.
  unfold transform.
  destruct (_obj (pipe w)) as [o|] eqn:H.
  - destruct (opt_obs_dec obj (Some o)) as [->|D].
    + rewrite transform_bound_same by exact H.
      destruct (strict_equals _ _); discriminate.
    + destruct (_subscription (pipe w)) as [h|] eqn:Hs.
      * rewrite (transform_rebind _ _ _ _ c w H D Hs).
        now apply transform_unbound_total.
      * rewrite (transform_rebind_null _ _ _ c w H D Hs). discriminate.
  - rewrite transform_unbound_fuel by exact H.
    now apply transform_unbound_total.
Qed.

Lemma destroy_bound h c w :
  _subscription (pipe w) = Some h ->
  ngOnDestroy c w =
    ({| pipe := new_pipe;
        next_handle := next_handle w;
        log := log w ++ [EvUnsubscribe h] |}, Ok tt).
Proof.
  intros H. unfold ngOnDestroy, bind at 1, this. rewrite H.
  now apply dispose_spec.
Qed.

Lemma destroy_unbound c w :
  _subscription (pipe w) = None ->
  ngOnDestroy c w = (w, Ok tt).
Proof.
  intros H. unfold ngOnDestroy, bind at 1, this. rewrite H. reflexivity.
Qed.

(** ** Deliveries *)

Lemma deliver_next h o v c w :
  producer_of h (log w) = Some o ->
  deliver h (NextN v) c w = next_callback o v c w.
Proof. intros P. unfold deliver. now rewrite P. Qed.

Lemma deliver_error h o e c w :
  producer_of h (log w) = Some o ->
  deliver h (ErrorN e) c w =
    ({| pipe := pipe w;
        next_handle := next_handle w;
        log := log w ++ [EvErrorSignalled h] |}, Throw (Thrown e)).
Proof. intros P. unfold deliver. now rewrite P. Qed.

Lemma deliver_complete h o c w :
  producer_of h (log w) = Some o ->
  deliver h CompleteN c w =
    ({| pipe := pipe w;
        next_handle := next_handle w;
        log := log w ++ [EvCompleted h] |}, Ok tt).
Proof. intros P. unfold deliver. now rewrite P. Qed.

Lemma deliver_unknown h n c w :
  producer_of h (log w) = None ->
  deliver h n c w = (w, Ok tt).
Proof. intros P. unfold deliver. now rewrite P. Qed.

Lemma notify_live h n c w :
  live h (log w) = true -> notify h n c w = deliver h n c w.
Proof. intros L. unfold notify. now rewrite L. Qed.

Lemma notify_closed h n c w :
  live h (log w) = false -> notify h n c w = (w, Ok tt).
Proof. intros L. unfold notify. now rewrite L. Qed.

(** ** Facts about the trace *)

Lemma active_subs_snoc l e :
  active_subs (l ++ [e]) = track (active_subs l) e.
Proof. unfold active_subs. now rewrite fold_left_app. Qed.

Lemma track_marks n : forall hs,
  fold_left track (repeat (EvMarkForCheck Tracked) n) hs = hs.
Proof. induction n as [|n IH]; intros hs; cbn; [reflexivity|apply IH]. Qed.

Lemma active_subs_subscribed l o h :
  active_subs (l ++ subscribe_trace o h) = active_subs l ++ [h].
Proof.
  unfold active_subs, subscribe_trace. rewrite fold_left_app.
  cbn [fold_left track]. rewrite fold_left_app, track_marks.
  destruct (sync_end o); reflexivity.
Qed.

Lemma producer_of_app h l1 l2 :
  producer_of h (l1 ++ l2) =
    match producer_of h l1 with
    | Some o => Some o
    | None => producer_of h l2
    end.
Proof.
  induction l1 as [|e l1 IH]; [reflexivity|].
  destruct e; cbn; try exact IH.
  destruct (Nat.eqb h h0); [reflexivity|exact IH].
Qed.

Lemma producer_of_subscribed o h :
  producer_of h (subscribe_trace o h) = Some o.
Proof. unfold subscribe_trace. cbn. now rewrite Nat.eqb_refl. Qed.

Lemma known_S n e : known n e = true -> known (S n) e = true.
Proof.
  destruct e; unfold known; auto; rewrite !Nat.ltb_lt; lia.
Qed.

Lemma forallb_known_S n l :
  forallb (known n) l = true -> forallb (known (S n)) l = true.
Proof.
  rewrite !forallb_forall. intros H e He. apply known_S. now apply H.
Qed.

Lemma forallb_marks (f : Event -> bool) n :
  f (EvMarkForCheck Tracked) = true ->
  forallb f (repeat (EvMarkForCheck Tracked) n) = true.
Proof. intros H. induction n; cbn; [reflexivity|]. now rewrite H. Qed.

Lemma known_subscribed o h :
  forallb (known (S h)) (subscribe_trace o h) = true.
Proof.
  assert (L : Nat.ltb h (S h) = true) by (apply Nat.ltb_lt; lia).
  unfold subscribe_trace. cbn [forallb]. rewrite forallb_app.
  rewrite forallb_marks by reflexivity.
  unfold known at 1. rewrite L. cbn.
  destruct (sync_end o); cbn; unfold known; rewrite ?L; reflexivity.
Qed.

Lemma zone_ok_subscribed o h :
  forallb zone_ok (subscribe_trace o h) = true.
Proof.
  unfold subscribe_trace. cbn [forallb]. rewrite forallb_app.
  rewrite forallb_marks by reflexivity. cbn.
  destruct (sync_end o); reflexivity.
Qed.

(** A subscription found in the trace was handed out before. *)
Lemma producer_of_known h o n l :
  producer_of h l = Some o ->
  forallb (known n) l = true ->
  h < n.
Proof.
  induction l as [|e l IH]; cbn; [discriminate|].
  intros H K. apply andb_true_iff in K as [K1 K2].
  destruct e; auto.
  destruct (Nat.eqb h h0) eqn:E; auto.
  apply Nat.eqb_eq in E. subst h0. unfold known in K1.
  now apply Nat.ltb_lt in K1.
Qed.

(** The next subscription to be handed out is not in the trace yet. *)
Lemma producer_of_fresh n l :
  forallb (known n) l = true -> producer_of n l = None.
Proof.
  intros K. destruct (producer_of n l) as [o|] eqn:E; [|reflexivity].
  pose proof (producer_of_known _ _ _ _ E K). lia.
Qed.

Lemma existsb_closes_app h l1 l2 :
  existsb (closes h) l1 = true -> existsb (closes h) (l1 ++ l2) = true.
Proof. intros H. now rewrite existsb_app, H. Qed.

(** A live subscription is among the active ones. *)
Lemma live_active h l :
  live h l = true -> In h (active_subs l).
Proof.
  unfold live. induction l as [|e l IH] using rev_ind; [discriminate|].
  rewrite producer_of_app, existsb_app, active_subs_snoc. cbn.
  rewrite orb_false_r.
  destruct (producer_of h l) as [o|] eqn:P.
  - intros L. apply negb_true_iff, orb_false_iff in L as [L1 L2].
    assert (I : In h (active_subs l)) by (apply IH; now rewrite L1).
    destruct e as [c0 o0 h0|h0|c0|h0|h0]; cbn; auto.
    + apply in_or_app. now left.
    + unfold drop_handle. apply filter_In. split; [exact I|].
      cbn in L2. now rewrite Nat.eqb_sym, L2.
  - destruct e as [c0 o0 h0|h0|c0|h0|h0]; cbn; try discriminate.
    destruct (Nat.eqb h h0) eqn:E; [|discriminate].
    apply Nat.eqb_eq in E. subst h0. intros _.
    apply in_or_app. right. now left.
Qed.

(** ** The invariant, unfolded *)

Lemma wf_parts w :
  wf w <->
  binding_ok (pipe w) = true
  /\ forallb (known (next_handle w)) (log w) = true
  /\ forallb zone_ok (log w) = true
  /\ holder_ok w = true.
Proof.
  unfold wf, wfb. rewrite !andb_true_iff. tauto.
Qed.

Lemma wf_new_world : wf new_world.
Proof. reflexivity. Qed.

(** In a well-formed world an unbound pipe is a cleared pipe without an
    active subscription. *)
Lemma wf_unbound w :
  wf w -> _obj (pipe w) = None ->
  pipe w = new_pipe /\ active_subs (log w) = [].
Proof.
  intros W H. apply wf_parts in W as (B & _ & _ & A).
  unfold binding_ok, holder_ok, active_subs in *.
  destruct w as [[lv lr s o] nh lg]; cbn in *. subst o.
  destruct s as [h|]; [discriminate|].
  apply andb_true_iff in B as [B1 B2].
  destruct lv; try discriminate. destruct lr; try discriminate.
  split; [reflexivity|].
  destruct (fold_left track lg []) as [|a r]; [reflexivity|].
  destruct r; discriminate.
Qed.

(** In a well-formed world a bound pipe holds the one active subscription,
    which was obtained from the bound observable. *)
Lemma wf_bound w o :
  wf w -> _obj (pipe w) = Some o ->
  exists h,
    _subscription (pipe w) = Some h
    /\ active_subs (log w) = [h]
    /\ producer_of h (log w) = Some o
    /\ h < next_handle w.
Proof.
  intros W H. apply wf_parts in W as (B & K & _ & A).
  unfold binding_ok, holder_ok, active_subs in *.
  destruct w as [[lv lr s o'] nh lg]; cbn in *. subst o'.
  destruct s as [h|]; [|discriminate]. exists h.
  destruct (fold_left track lg []) as [|a [|b r]]; try discriminate.
  apply andb_true_iff in A as [A1 A2]. apply Nat.eqb_eq in A1. subst a.
  unfold opt_obs_eqb in A2. apply negb_true_iff, not_identical_false in A2.
  repeat split; auto. eapply producer_of_known; eauto.
Qed.

Lemma wf_subscription_bound w h :
  wf w -> _subscription (pipe w) = Some h ->
  exists o, _obj (pipe w) = Some o.
Proof.
  intros W H. apply wf_parts in W as (B & _). unfold binding_ok in B.
  rewrite H in B. destruct (_obj (pipe w)) as [o|]; [eauto|discriminate].
Qed.

(** ** The invariant along the changes a method makes *)

Lemma holder_ok_bound h o p nh lg :
  _subscription p = Some h -> _obj p = Some o ->
  active_subs lg = [h] -> producer_of h lg = Some o ->
  holder_ok {| pipe := p; next_handle := nh; log := lg |} = true.
Proof.
  intros Hs Ho A P. unfold holder_ok. cbn. rewrite A, Hs, P, Ho.
  rewrite Nat.eqb_refl. unfold opt_obs_eqb. now rewrite not_identical_same.
Qed.

(** A value is cached and a refresh requested while the pipe is bound. *)
Lemma wf_cached w o v :
  wf w -> _obj (pipe w) = Some o ->
  wf {| pipe := set_latestValue v (pipe w);
        next_handle := next_handle w;
        log := log w ++ [EvMarkForCheck Tracked] |}.
Proof.
  intros W H. destruct (wf_bound w o W H) as (h & Hs & A & P & _).
  apply wf_parts in W as (B & K & Z & _). apply wf_parts. cbn.
  repeat split.
  - unfold binding_ok. cbn. now rewrite H, Hs.
  - rewrite forallb_app, K. reflexivity.
  - rewrite forallb_app, Z. reflexivity.
  - apply holder_ok_bound with (h := h) (o := o); auto.
    + rewrite active_subs_snoc. exact A.
    + rewrite producer_of_app, P. reflexivity.
Qed.

(** The returned value is noted while the pipe is bound. *)
Lemma wf_returned w o v :
  wf w -> _obj (pipe w) = Some o ->
  wf {| pipe := set_latestReturnedValue v (pipe w);
        next_handle := next_handle w;
        log := log w |}.
Proof.
  intros W H. destruct (wf_bound w o W H) as (h & Hs & A & P & _).
  apply wf_parts in W as (B & K & Z & _). apply wf_parts. cbn.
  repeat split; auto.
  - unfold binding_ok. cbn. now rewrite H, Hs.
  - apply holder_ok_bound with (h := h) (o := o); auto.
Qed.

(** The state [_dispose] leaves behind. *)
Lemma wf_disposed w h :
  wf w -> _subscription (pipe w) = Some h ->
  wf {| pipe := new_pipe;
        next_handle := next_handle w;
        log := log w ++ [EvUnsubscribe h] |}.
Proof.
  intros W Hs. destruct (wf_subscription_bound w h W Hs) as [o H].
  destruct (wf_bound w o W H) as (h' & Hs' & A & P & L).
  assert (h' = h) by congruence. subst h'.
  apply wf_parts in W as (B & K & Z & _). apply wf_parts. cbn.
  repeat split.
  - rewrite forallb_app, K. cbn. unfold known.
    apply Nat.ltb_lt in L. now rewrite L.
  - rewrite forallb_app, Z. reflexivity.
  - unfold holder_ok. cbn. rewrite active_subs_snoc, A. cbn.
    now rewrite Nat.eqb_refl.
Qed.

(** The state a [subscribe] that returned, and the lines after it, leave
    behind. *)
Lemma wf_subscribed w o v r :
  wf w -> _obj (pipe w) = None ->
  wf {| pipe := {| _latestValue := v;
                   _latestReturnedValue := r;
                   _subscription := Some (next_handle w);
                   _obj := Some o |};
        next_handle := S (next_handle w);
        log := log w ++ subscribe_trace o (next_handle w) |}.
Proof.
  intros W H. destruct (wf_unbound w W H) as [_ A].
  apply wf_parts in W as (B & K & Z & _). apply wf_parts. cbn.
  repeat split.
  - now rewrite forallb_app, (forallb_known_S _ _ K), known_subscribed.
  - now rewrite forallb_app, Z, zone_ok_subscribed.
  - apply holder_ok_bound with (h := next_handle w) (o := o); auto.
    + rewrite active_subs_subscribed, A. reflexivity.
    + rewrite producer_of_app, (producer_of_fresh _ _ K).
      apply producer_of_subscribed.
Qed.

(** The state a [subscribe] that threw leaves behind. *)
Lemma stuck_failed_subscribe w o e v r :
  wf w -> _obj (pipe w) = None -> sync_error o = Some e ->
  stuck {| pipe := {| _latestValue := v;
                      _latestReturnedValue := r;
                      _subscription := _subscription (pipe w);
                      _obj := Some o |};
           next_handle := S (next_handle w);
           log := log w ++ subscribe_trace o (next_handle w) |} = true.
Proof.
  intros W H S. destruct (wf_unbound w W H) as [E A].
  apply wf_parts in W as (B & K & Z & _).
  unfold stuck. cbn. rewrite E. cbn.
  rewrite forallb_app, (forallb_known_S _ _ K), known_subscribed.
  rewrite forallb_app, Z, zone_ok_subscribed.
  rewrite active_subs_subscribed, A. cbn.
  rewrite existsb_app. apply orb_true_iff. right.
  unfold subscribe_trace, sync_error in *. cbn. rewrite existsb_app.
  apply orb_true_iff. right.
  destruct (sync_end o); try discriminate. cbn. now rewrite Nat.eqb_refl.
Qed.

(** A subscriber is noted to have ended, by an error or by completion. *)
Lemma wf_closed w h o ev :
  ev = EvErrorSignalled h \/ ev = EvCompleted h ->
  wf w -> producer_of h (log w) = Some o ->
  wf {| pipe := pipe w;
        next_handle := next_handle w;
        log := log w ++ [ev] |}.
Proof.
  intros Hev W P. apply wf_parts in W as (B & K & Z & A).
  assert (L : Nat.ltb h (next_handle w) = true)
    by (apply Nat.ltb_lt; eapply producer_of_known; eauto).
  apply wf_parts. cbn. repeat split; auto.
  - rewrite forallb_app, K. destruct Hev as [-> | ->]; cbn; unfold known;
      now rewrite L.
  - rewrite forallb_app, Z. destruct Hev as [-> | ->]; reflexivity.
  - unfold holder_ok in *. cbn. rewrite active_subs_snoc.
    assert (T : track (active_subs (log w)) ev = active_subs (log w))
      by (destruct Hev as [-> | ->]; reflexivity).
    rewrite T.
    destruct (active_subs (log w)) as [|a [|b l]]; auto.
    destruct (_subscription (pipe w)); auto.
    rewrite producer_of_app.
    apply andb_true_iff in A as [A1 A2]. rewrite A1. cbn.
    destruct (producer_of a (log w)); auto.
    destruct Hev as [-> | ->]; exact A2.
Qed.

(** [transform(null)] on an unbound pipe of a well-formed world changes
    nothing. *)
Lemma unbound_absent_noop w :
  wf w -> _obj (pipe w) = None ->
  {| pipe := set_latestReturnedValue (_latestValue (pipe w)) (pipe w);
     next_handle := next_handle w;
     log := log w |} = w.
Proof.
  intros W H. destruct (wf_unbound w W H) as [E _].
  destruct w as [p nh lg]. cbn in *. subst p. reflexivity.
Qed.

(** The stuck state stays: the source and the missing subscription are not
    touched again, and events that subscribe and unsubscribe nothing may be
    added to the trace. *)
Lemma stuck_kept p nh lg p' l' :
  stuck {| pipe := p; next_handle := nh; log := lg |} = true ->
  _obj p' = _obj p -> _subscription p' = _subscription p ->
  forallb (known nh) l' = true -> forallb zone_ok l' = true ->
  (forall hs, fold_left track l' hs = hs) ->
  stuck {| pipe := p'; next_handle := nh; log := lg ++ l' |} = true.
Proof.
  unfold stuck. cbn. intros S Eo Es K Z T. rewrite Eo, Es.
  destruct (_obj p); [|discriminate].
  destruct (_subscription p); [discriminate|].
  apply andb_true_iff in S as [S A]. apply andb_true_iff in S as [S1 S2].
  rewrite !forallb_app, S1, S2, K, Z. cbn.
  unfold active_subs in *. rewrite fold_left_app, T.
  destruct (fold_left track lg []) as [|a [|b r]]; try discriminate.
  now apply existsb_closes_app.
Qed.

(** ** Every reachable world is well formed or stuck *)

Lemma transform_from_wf obj c w :
  wf w ->
  (wf (fst (transform obj c w))
   /\ ((exists r, snd (transform obj c w) = Ok r)))
  \/ (exists o e,
        obj = Some o /\ _obj (pipe w) <> Some o /\ sync_error o = Some e
        /\ stuck (fst (transform obj c w)) = true
        /\ snd (transform obj c w) = Throw (Thrown e)).
Proof.
  intros W.
  assert (U : forall w0, wf w0 -> _obj (pipe w0) = None ->
    (wf (fst (transform_rec 1 obj c w0))
     /\ (exists r, snd (transform_rec 1 obj c w0) = Ok r))
    \/ (exists o e,
          obj = Some o /\ sync_error o = Some e
          /\ stuck (fst (transform_rec 1 obj c w0)) = true
          /\ snd (transform_rec 1 obj c w0) = Throw (Thrown e))).
  { intros w0 W0 H0. destruct obj as [o|].
    - rewrite transform_unbound_some by exact H0. cbv zeta.
      destruct (sync_error o) as [e|] eqn:S.
      + right. exists o, e. repeat split; auto.
        now apply stuck_failed_subscribe with (e := e).
      + left. split; [now apply wf_subscribed|eexists; reflexivity].
    - rewrite transform_unbound_absent by exact H0. left. cbn.
      rewrite unbound_absent_noop by assumption.
      split; [exact W0|eexists; reflexivity]. }
  unfold transform. destruct (_obj (pipe w)) as [o|] eqn:H.
  - destruct (opt_obs_dec obj (Some o)) as [->|D].
    + left. rewrite transform_bound_same by exact H.
      destruct (strict_equals _ _); cbn.
      * split; [exact W|eexists; reflexivity].
      * split; [now apply wf_returned with (o := o)|eexists; reflexivity].
    + destruct (wf_bound w o W H) as (h & Hs & _).
      rewrite (transform_rebind _ _ _ _ c w H D Hs).
      destruct (U _ (wf_disposed w h W Hs) eq_refl)
        as [L|(o' & e & E & S & St & R)]; [now left|].
      right. exists o', e. repeat split; auto. congruence.
  - rewrite transform_unbound_fuel by exact H.
    destruct (U w W H) as [L|(o' & e & E & S & St & R)]; [now left|].
    right. exists o', e. repeat split; auto. congruence.
Qed.

Lemma wf_destroy c w : wf w -> wf (fst (ngOnDestroy c w)).
Proof.
  intros W. destruct (_subscription (pipe w)) as [h|] eqn:H.
  - rewrite (destroy_bound h c w H). now apply wf_disposed.
  - now rewrite destroy_unbound.
Qed.

Lemma wf_next_callback o v c w : wf w -> wf (fst (next_callback o v c w)).
Proof.
  intros W. destruct (opt_obs_dec (_obj (pipe w)) (Some o)) as [E|D].
  - rewrite next_callback_bound by exact E. now apply wf_cached with (o := o).
  - now rewrite next_callback_stale.
Qed.

Lemma wf_deliver h n c w : wf w -> wf (fst (deliver h n c w)).
Proof.
  intros W. destruct (producer_of h (log w)) as [o|] eqn:P.
  - destruct n as [v|e|].
    + rewrite (deliver_next h o v c w P). now apply wf_next_callback.
    + rewrite (deliver_error h o e c w P). cbn.
      apply wf_closed with (h := h) (o := o); auto.
    + rewrite (deliver_complete h o c w P). cbn.
      apply wf_closed with (h := h) (o := o); auto.
  - now rewrite deliver_unknown.
Qed.

Lemma stuck_unfold w :
  stuck w = true ->
  exists o, _obj (pipe w) = Some o /\ _subscription (pipe w) = None
            /\ forallb (known (next_handle w)) (log w) = true.
Proof.
  unfold stuck. destruct (_obj (pipe w)) as [o|]; [|discriminate].
  destruct (_subscription (pipe w)); [discriminate|].
  intros S. apply andb_true_iff in S as [S _].
  apply andb_true_iff in S as [S _]. eauto.
Qed.

Lemma stuck_step c op w : stuck w = true -> stuck (step c op w) = true.
Proof.
  intros S. destruct (stuck_unfold w S) as (o & H & Hs & K).
  assert (Kept : forall p' l',
            _obj p' = _obj (pipe w) ->
            _subscription p' = _subscription (pipe w) ->
            forallb (known (next_handle w)) l' = true ->
            forallb zone_ok l' = true ->
            (forall hs, fold_left track l' hs = hs) ->
            stuck {| pipe := p'; next_handle := next_handle w;
                     log := log w ++ l' |} = true).
  { destruct w as [p nh lg]. cbn [pipe next_handle log] in *.
    intros p' l'. now apply stuck_kept. }
  assert (Same : forall p',
            _obj p' = _obj (pipe w) ->
            _subscription p' = _subscription (pipe w) ->
            stuck {| pipe := p'; next_handle := next_handle w;
                     log := log w |} = true).
  { intros p' Eo Es. rewrite <- (app_nil_r (log w)). now apply Kept. }
  assert (One : forall p' ev,
            _obj p' = _obj (pipe w) ->
            _subscription p' = _subscription (pipe w) ->
            known (next_handle w) ev = true -> zone_ok ev = true ->
            (forall hs, track hs ev = hs) ->
            stuck {| pipe := p'; next_handle := next_handle w;
                     log := log w ++ [ev] |} = true).
  { intros p' ev Eo Es Kn Z T. apply Kept; auto.
    - cbn. now rewrite Kn.
    - cbn. now rewrite Z. }
  destruct op as [obj| |h n]; unfold step.
  - unfold transform. destruct (opt_obs_dec obj (Some o)) as [->|D].
    + rewrite transform_bound_same by exact H.
      destruct (strict_equals _ _); cbn; [exact S|].
      now apply Same.
    + now rewrite (transform_rebind_null _ _ _ c w H D Hs).
  - now rewrite destroy_unbound.
  - destruct (producer_of h (log w)) as [o'|] eqn:P.
    + assert (L : Nat.ltb h (next_handle w) = true)
        by (apply Nat.ltb_lt; eapply producer_of_known; eauto).
      destruct n as [v|e|].
      * rewrite (deliver_next h o' v c w P).
        destruct (opt_obs_dec (Some o) (Some o')) as [E|D].
        -- injection E as <-. rewrite next_callback_bound by exact H. cbn.
           now apply One.
        -- rewrite next_callback_stale; [exact S|]. congruence.
      * rewrite (deliver_error h o' e c w P). cbn. now apply One.
      * rewrite (deliver_complete h o' c w P). cbn. now apply One.
    + now rewrite deliver_unknown.
Qed.

Lemma settled_step c op w : settled w -> settled (step c op w).
Proof.
  intros [W|S]; [|right; now apply stuck_step].
  destruct op as [obj| |h n]; unfold step.
  - destruct (transform_from_wf obj c w W)
      as [[W' _]|(o & e & _ & _ & _ & St & _)]; [now left|now right].
  - left. now apply wf_destroy.
  - left. now apply wf_deliver.
Qed.

Lemma reachable_settled w : reachable w -> settled w.
Proof.
  induction 1 as [|c op w _ IH]; [left; exact wf_new_world|].
  now apply settled_step.
Qed.

Lemma settled_zone_ok w : settled w -> forallb zone_ok (log w) = true.
Proof.
  intros [W|S].
  - now apply wf_parts in W as (_ & _ & Z & _).
  - unfold stuck in S. destruct (_obj (pipe w)); [|discriminate].
    destruct (_subscription (pipe w)); [discriminate|].
    apply andb_true_iff in S as [S _]. now apply andb_true_iff in S as [_ Z].
Qed.

(** In every reachable world a live subscription is the one the pipe holds,
    and it was obtained from the bound observable. *)
Lemma settled_live w h :
  settled w -> live h (log w) = true ->
  _subscription (pipe w) = Some h
  /\ producer_of h (log w) = _obj (pipe w).
Proof.
  intros [W|S] L; pose proof (live_active h (log w) L) as I.
  - destruct (_obj (pipe w)) as [o|] eqn:H.
    + destruct (wf_bound w o W H) as (h' & Hs & A & P & _).
      rewrite A in I. destruct I as [<-|[]]. auto.
    + destruct (wf_unbound w W H) as [_ A]. rewrite A in I. destruct I.
  - exfalso. unfold stuck in S.
    destruct (_obj (pipe w)); [|discriminate].
    destruct (_subscription (pipe w)); [discriminate|].
    apply andb_true_iff in S as [_ S].
    destruct (active_subs (log w)) as [|a [|b r]]; try discriminate.
    destruct I as [<-|[]]. unfold live in L.
    destruct (producer_of a (log w)); [|discriminate].
    rewrite S in L. discriminate.
Qed.

(** ** Strict equality *)

Lemma strict_equals_null v : strict_equals v JNull = true -> v = JNull.
Proof. destruct v; cbn; try discriminate; reflexivity. Qed.

Lemma strict_equals_refl v : v <> JNaN -> strict_equals v v = true.
Proof.
  destruct v; cbn; intros H; try reflexivity.
  - apply Bool.eqb_reflx.
  - apply Z.eqb_refl.
  - contradiction.
  - apply String.eqb_refl.
  - apply Nat.eqb_refl.
Qed.

(** ** First renders and teardowns *)

(** The first [transform] with an observable the pipe is not bound to:
    whatever was bound is disposed of, the observable is subscribed, the
    values it pushes during the call are cached, and the call returns the
    last of them or throws the error the observable signalled. *)
Lemma first_render_spec (p : Observable) c w :
  wf w -> _obj (pipe w) <> Some p ->
  exists pre,
    transform (Some p) c w =
      (let v := last (sync_emissions p) JNull in
       let l := pre ++ subscribe_trace p (next_handle w) in
       match sync_error p with
       | Some e =>
           ({| pipe := {| _latestValue := v;
                          _latestReturnedValue := JNull;
                          _subscription := None;
                          _obj := Some p |};
               next_handle := S (next_handle w); log := l |},
            Throw (Thrown e))
       | None =>
           ({| pipe := {| _latestValue := v;
                          _latestReturnedValue := v;
                          _subscription := Some (next_handle w);
                          _obj := Some p |};
               next_handle := S (next_handle w); log := l |},
            Ok (Plain v))
       end)
    /\ wf {| pipe := new_pipe; next_handle := next_handle w; log := pre |}
    /\ ((_obj (pipe w) = None /\ pre = log w)
        \/ (exists h, _subscription (pipe w) = Some h
                      /\ pre = log w ++ [EvUnsubscribe h])).
Proof.
  intros W D. unfold transform. destruct (_obj (pipe w)) as [o|] eqn:H.
  - destruct (wf_bound w o W H) as (h & Hs & _).
    assert (D' : Some p <> Some o) by congruence.
    exists (log w ++ [EvUnsubscribe h]).
    rewrite (transform_rebind _ _ _ _ c w H D' Hs).
    rewrite transform_unbound_some by reflexivity.
    split; [reflexivity|]. split; [now apply wf_disposed|].
    right. eauto.
  - destruct (wf_unbound w W H) as [E _]. exists (log w).
    rewrite transform_unbound_fuel, transform_unbound_some by exact H.
    rewrite E. split; [reflexivity|]. split; [|now left].
    destruct w as [pw nh lg]. cbn in *. now subst pw.
Qed.

(** After [ngOnDestroy] a well-formed pipe is in the state of a new one. *)
Lemma destroy_clears c w : wf w -> pipe (fst (ngOnDestroy c w)) = new_pipe.
Proof.
  intros W. destruct (_subscription (pipe w)) as [h|] eqn:Hs.
  - now rewrite (destroy_bound h c w Hs).
  - rewrite destroy_unbound by exact Hs. cbn.
    apply wf_unbound; [exact W|].
    apply wf_parts in W as (B & _). unfold binding_ok in B.
    rewrite Hs in B. destruct (_obj (pipe w)); [discriminate|reflexivity].
Qed.

(** [transform] ends the same way, and leaves the same values in the pipe,
    on any two unbound pipes in the cleared state. *)
Lemma transform_cleared obj c c' w w' :
  pipe w = new_pipe -> pipe w' = new_pipe ->
  snd (transform obj c w) = snd (transform obj c' w')
  /\ _latestValue (pipe (fst (transform obj c w)))
     = _latestValue (pipe (fst (transform obj c' w')))
  /\ _latestReturnedValue (pipe (fst (transform obj c w)))
     = _latestReturnedValue (pipe (fst (transform obj c' w')))
  /\ _obj (pipe (fst (transform obj c w)))
     = _obj (pipe (fst (transform obj c' w'))).
Proof.
  intros E E'. unfold transform. destruct obj as [o|].
  - rewrite !transform_unbound_some by (rewrite ?E, ?E'; reflexivity).
    rewrite E, E'. cbv zeta. destruct (sync_error o); cbn; auto.
  - rewrite !transform_unbound_absent by (rewrite ?E, ?E'; reflexivity).
    rewrite E, E'. cbn. auto.
Qed.

Lemma wf_handle_iff_source w : wf w -> handle_iff_source (pipe w).
Proof.
  intros W. apply wf_parts in W as (B & _).
  unfold binding_ok, handle_iff_source in *.
  destruct (_obj (pipe w)), (_subscription (pipe w));
    try discriminate; split; auto; discriminate.
Qed.

Lemma zone_ok_subscribe l c o h :
  forallb zone_ok l = true -> In (EvSubscribe c o h) l -> c = Untracked.
Proof.
  intros Z I. rewrite forallb_forall in Z. specialize (Z _ I).
  destruct c; [discriminate|reflexivity].
Qed.

Lemma zone_ok_mark l c :
  forallb zone_ok l = true -> In (EvMarkForCheck c) l -> c = Tracked.
Proof.
  intros Z I. rewrite forallb_forall in Z. specialize (Z _ I).
  destruct c; [reflexivity|discriminate].
Qed.

Lemma zone_ok_nothing_pending l :
  forallb zone_ok l = true -> pending_in_zone l = [].
Proof.
  induction l as [|e l IH]; [reflexivity|]. cbn.
  intros Z. apply andb_true_iff in Z as [Z1 Z2].
  destruct e as [[|] o h| | | |]; try discriminate; cbn; auto.
Qed.

Lemma last_In (l : list JsValue) d : l <> [] -> In (last l d) l.
Proof.
  induction l as [|x l IH]; [congruence|]. intros _.
  destruct l as [|y l]; [now left|].
  right. apply IH. discriminate.
Qed.

(** ** Once nothing is live *)

Lemma live_snoc h l ev :
  (forall c o h', ev <> EvSubscribe c o h') ->
  live h (l ++ [ev]) = true ->
  live h l = true /\ closes h ev = false.
Proof.
  intros N. unfold live. rewrite producer_of_app, existsb_app. cbn.
  rewrite orb_false_r.
  destruct (producer_of h l) as [o|].
  - intros L. apply negb_true_iff, orb_false_iff in L as [L1 L2].
    now rewrite L1.
  - destruct ev as [c0 o0 h0| | | |]; try discriminate.
    exfalso. now apply (N c0 o0 h0).
Qed.

(** With no live subscription, the operations that keep the binding (the
    bound observable is rendered again, rxjs delivers what it can) leave
    the trace, the source and the cached value as they are. *)
Lemma nothing_live_run ops : forall w,
  (forall h, live h (log w) = false) ->
  forallb (fun co => keeps_binding (_obj (pipe w)) (snd co)) ops = true ->
  log (run_ops ops w) = log w
  /\ _obj (pipe (run_ops ops w)) = _obj (pipe w)
  /\ _latestValue (pipe (run_ops ops w)) = _latestValue (pipe w).
Proof.
  induction ops as [|[c op] ops IH]; intros w L K; [cbn; auto|].
  cbn in K. apply andb_true_iff in K as [K1 K2].
  assert (St : log (real_step c op w) = log w
               /\ _obj (pipe (real_step c op w)) = _obj (pipe w)
               /\ _latestValue (pipe (real_step c op w))
                  = _latestValue (pipe w)).
  { destruct op as [obj| |h n]; cbn in K1; [|discriminate|].
    - apply negb_true_iff, not_identical_false in K1. subst obj.
      unfold real_step, step, transform.
      destruct (_obj (pipe w)) as [o|] eqn:H.
      + rewrite transform_bound_same by exact H.
        destruct (strict_equals _ _); cbn; auto.
      + rewrite transform_unbound_absent by exact H. cbn. auto.
    - unfold real_step. rewrite notify_closed by apply L. cbn. auto. }
  destruct St as (S1 & S2 & S3).
  change (run_ops ((c, op) :: ops) w)
    with (run_ops ops (real_step c op w)).
  destruct (IH (real_step c op w)) as (I1 & I2 & I3).
  - intros h. rewrite S1. apply L.
  - now rewrite S2.
  - rewrite I1, I2, I3. auto.
Qed.

(** ** The properties of the specification *)

(** C9. [transform] with nothing to bind, on an unbound pipe, returns [null],
    subscribes to nothing and leaves the pipe and the trace as they were. *)
Theorem C9_render_absent_unbound c w :
  wf w -> _obj (pipe w) = None ->
  transform None c w = (w, Ok (Plain JNull))
  /\ _subscription (pipe w) = None
  /\ active_subs (log w) = [].
Proof.
  intros W H. destruct (wf_unbound w W H) as [E A].
  unfold transform. rewrite transform_unbound_absent by exact H.
  rewrite unbound_absent_noop by assumption.
  rewrite E. cbn. auto.
Qed.

(** C1, amended. For a producer that, while it is being subscribed, pushes
    no value and signals no error: the first [transform] on an unbound pipe
    returns [null] and binds the pipe; once the producer has emitted [v]
    and the delivery has run, the next [transform] returns [v] and notes it
    as returned; the result is wrapped unless [v] is [null], which is
    handed back bare. *)
Theorem C1_first_render_then_emission (p : Observable) v c1 c2 c3 w :
  wf w -> _obj (pipe w) = None ->
  sync_emissions p = [] -> sync_error p = None ->
  exists h w1 w3,
    transform (Some p) c1 w = (w1, Ok (Plain JNull))
    /\ _subscription (pipe w1) = Some h
    /\ _obj (pipe w1) = Some p
    /\ transform (Some p) c3 (fst (deliver h (NextN v) c2 w1)) =
         (w3, Ok (if strict_equals v JNull then Plain v else Wrapped v))
    /\ _latestValue (pipe w3) = v
    /\ _latestReturnedValue (pipe w3) = v.
Proof.
  intros W H S F. destruct (wf_unbound w W H) as [E _].
  pose proof (proj1 (wf_parts w) W) as (_ & K & _).
  unfold transform.
  rewrite transform_unbound_fuel, transform_unbound_some by exact H.
  rewrite F, S, E. cbv zeta. fields.
  exists (next_handle w). eexists.
  exists {| pipe := {| _latestValue := v;
                       _latestReturnedValue := v;
                       _subscription := Some (next_handle w);
                       _obj := Some p |};
            next_handle := Datatypes.S (next_handle w);
            log := (log w ++ subscribe_trace p (next_handle w))
                     ++ [EvMarkForCheck Tracked] |}.
  split; [reflexivity|]. fields.
  split; [reflexivity|]. split; [reflexivity|].
  rewrite deliver_next with (o := p).
  2:{ fields. rewrite producer_of_app, (producer_of_fresh _ _ K).
      apply producer_of_subscribed. }
  rewrite next_callback_bound by reflexivity. fields.
  rewrite transform_bound_same by reflexivity. fields.
  destruct (strict_equals v JNull) eqn:Q.
  - apply strict_equals_null in Q. subst v. fields. auto.
  - fields. auto.
Qed.

(** C5, the defect. [_subscribe] sets the source before it subscribes and
    stores the subscription after: when the observable signals an error
    during [subscribe], the error callback throws, [subscribe] throws, and
    the pipe is left with a source and no subscription.  From a pipe on
    which the invariant holds, [transform] thus reaches one on which it
    fails. *)
Theorem C5_failed_subscribe_breaks_invariant (p : Observable) e c w :
  wf w -> _obj (pipe w) <> Some p -> sync_error p = Some e ->
  handle_iff_source (pipe w)
  /\ snd (transform (Some p) c w) = Throw (Thrown e)
  /\ _obj (pipe (fst (transform (Some p) c w))) = Some p
  /\ _subscription (pipe (fst (transform (Some p) c w))) = None
  /\ ~ handle_iff_source (pipe (fst (transform (Some p) c w))).
Proof.
  intros W D S. split; [now apply wf_handle_iff_source|].
  destruct (first_render_spec p c w W D) as (pre & E & _).
  rewrite E, S. cbn. repeat split.
  unfold handle_iff_source. cbn. intros [I _].
  specialize (I eq_refl). discriminate.
Qed.

(** C2. Whatever zone [transform] is called from, the observable is
    subscribed outside the Angular zone, so in every reachable world no
    subscription was ever made inside it and the producer leaves nothing
    pending there; and whatever zone a value is delivered from, the callback
    re-enters the Angular zone before it caches the value and asks for a
    refresh, so every refresh request in the trace was made inside it. *)
Theorem C2_subscribe_outside_deliver_inside w :
  reachable w ->
  (forall o c,
      log (fst (_subscribe o c w)) =
        log w ++ EvSubscribe Untracked o (next_handle w)
          :: repeat (EvMarkForCheck Tracked) (length (sync_emissions o))
          ++ end_events (sync_end o) (next_handle w))
  /\ (forall c o h, In (EvSubscribe c o h) (log w) -> c = Untracked)
  /\ pending_in_zone (log w) = []
  /\ (forall o v c,
        next_callback o v c w = _updateLatestValue o v Tracked w
        /\ (_obj (pipe w) = Some o ->
            next_callback o v c w =
              ({| pipe := set_latestValue v (pipe w);
                  next_handle := next_handle w;
                  log := log w ++ [EvMarkForCheck Tracked] |}, Ok tt)))
  /\ (forall c, In (EvMarkForCheck c) (log w) -> c = Tracked).
Proof.
  intros R. apply reachable_settled, settled_zone_ok in R.
  split; [|split; [|split; [|split]]].
  - intros o c. rewrite subscribe_spec. cbv zeta.
    destruct (sync_error o); reflexivity.
  - intros c o h. now apply zone_ok_subscribe.
  - now apply zone_ok_nothing_pending.
  - intros o v c. split; [reflexivity|]. apply next_callback_bound.
  - intros c. now apply zone_ok_mark.
Qed.

(** C3, the defect. When the first observable signals an error while it is
    being subscribed, [transform] is left with that observable as source and
    no subscription; the next [transform], with another observable, then
    fails on [null] in [_dispose] before anything changes: the second
    observable is never subscribed and the pipe stays bound to the first. *)
Theorem C3_rebinding_after_failed_subscribe (p1 p2 : Observable) e c1 c2 w :
  wf w -> _obj (pipe w) <> Some p1 -> sync_error p1 = Some e -> p1 <> p2 ->
  snd (transform (Some p1) c1 w) = Throw (Thrown e)
  /\ transform (Some p2) c2 (fst (transform (Some p1) c1 w))
     = (fst (transform (Some p1) c1 w), Throw TypeError)
  /\ _obj (pipe (fst (transform (Some p1) c1 w))) = Some p1
  /\ _subscription (pipe (fst (transform (Some p1) c1 w))) = None.
Proof.
  intros W D S N.
  destruct (first_render_spec p1 c1 w W D) as (pre & E & _).
  rewrite E, S. cbn [fst snd].
  split; [reflexivity|]. split; [|split; reflexivity].
  unfold transform. apply transform_rebind_null with (o := p1);
    [reflexivity|congruence|reflexivity].
Qed.

(** C4, amended. On a pipe that is bound and holds its subscription,
    [ngOnDestroy] unsubscribes it, which leaves none active, and puts every
    field back to its initial value; [transform] afterwards ends as it ends
    on a new pipe and leaves the same values behind: for a producer that
    pushes nothing and signals no error while being subscribed, [null] is
    returned and the pipe is bound to it under a new subscription.  On an
    unbound pipe [ngOnDestroy] does nothing, and calling it again after any
    call does nothing either. *)
Theorem C4_teardown c w :
  wf w ->
  (forall p, _obj (pipe w) = Some p ->
     exists h,
       _subscription (pipe w) = Some h
       /\ ngOnDestroy c w =
            ({| pipe := new_pipe;
                next_handle := next_handle w;
                log := log w ++ [EvUnsubscribe h] |}, Ok tt)
       /\ active_subs (log w ++ [EvUnsubscribe h]) = [])
  /\ (forall obj c1 c2,
        snd (transform obj c1 (fst (ngOnDestroy c w)))
        = snd (transform obj c2 new_world)
        /\ _latestValue (pipe (fst (transform obj c1 (fst (ngOnDestroy c w)))))
           = _latestValue (pipe (fst (transform obj c2 new_world)))
        /\ _latestReturnedValue
             (pipe (fst (transform obj c1 (fst (ngOnDestroy c w)))))
           = _latestReturnedValue (pipe (fst (transform obj c2 new_world)))
        /\ _obj (pipe (fst (transform obj c1 (fst (ngOnDestroy c w)))))
           = _obj (pipe (fst (transform obj c2 new_world))))
  /\ (forall (p : Observable) c1,
        sync_emissions p = [] -> sync_error p = None ->
        let w' := fst (ngOnDestroy c w) in
        exists w'',
          transform (Some p) c1 w' = (w'', Ok (Plain JNull))
          /\ _obj (pipe w'') = Some p
          /\ _subscription (pipe w'') = Some (next_handle w')
          /\ log w'' = log w' ++ subscribe_trace p (next_handle w'))
  /\ (_obj (pipe w) = None -> ngOnDestroy c w = (w, Ok tt))
  /\ (forall c1,
        ngOnDestroy c1 (fst (ngOnDestroy c w))
        = (fst (ngOnDestroy c w), Ok tt)).
Proof.
  intros W. pose proof (destroy_clears c w W) as Cl.
  split; [|split; [|split; [|split]]].
  - intros p H. destruct (wf_bound w p W H) as (h & Hs & A & _).
    exists h. split; [exact Hs|]. split; [now apply destroy_bound|].
    rewrite active_subs_snoc, A. cbn. now rewrite Nat.eqb_refl.
  - intros obj c1 c2. now apply transform_cleared.
  - intros p c1 S F w'. unfold transform.
    rewrite transform_unbound_fuel, transform_unbound_some
      by (unfold w'; now rewrite Cl).
    unfold w'. rewrite F, S, Cl. cbv zeta. fields.
    eexists. split; [reflexivity|]. fields. auto.
  - intros H. apply destroy_unbound.
    destruct (wf_unbound w W H) as [E _]. now rewrite E.
  - intros c1. apply destroy_unbound. now rewrite Cl.
Qed.

(** C6. In every reachable world, an operation that really happens changes
    the cached latest value in these ways only: a delivery stores the
    delivered value, and then the subscription it comes through is the one
    the pipe holds, obtained from the bound source; the subscription being
    made by [transform] stores a value it pushes for the source just bound;
    and disposal, on teardown or rebinding, puts the value back to [null].
    A notification through any subscription the pipe does not hold (a
    stale, cancelled one) changes nothing, and the guard of
    [_updateLatestValue] by itself drops every delivery from a subscription
    to another observable than the bound one. *)
Theorem C6_latest_value_writers c op w :
  reachable w -> legal op w = true ->
  (_latestValue (pipe (step c op w)) = _latestValue (pipe w)
   \/ (exists h v,
         op = OpDeliver h (NextN v)
         /\ _subscription (pipe w) = Some h
         /\ producer_of h (log w) = _obj (pipe w)
         /\ _latestValue (pipe (step c op w)) = v)
   \/ (exists o,
         op = OpRender (Some o)
         /\ _obj (pipe (step c op w)) = Some o
         /\ In (_latestValue (pipe (step c op w))) (sync_emissions o))
   \/ (exists h,
         _subscription (pipe w) = Some h
         /\ In (EvUnsubscribe h) (log (step c op w))
         /\ _latestValue (pipe (step c op w)) = JNull))
  /\ (forall h n c',
        _subscription (pipe w) <> Some h -> notify h n c' w = (w, Ok tt))
  /\ (forall h o v c',
        producer_of h (log w) = Some o ->
        _obj (pipe w) <> Some o ->
        deliver h (NextN v) c' w = (w, Ok tt)).
Proof.
  intros R Lg. apply reachable_settled in R.
  split; [|split].
  - destruct op as [obj| |h n]; unfold step.
    + unfold transform.
      assert (U : forall o lv lr s nh lg,
        let w0 := {| pipe := {| _latestValue := lv;
                                _latestReturnedValue := lr;
                                _subscription := s;
                                _obj := None |};
                     next_handle := nh; log := lg |} in
        let w1 := fst (transform_rec 1 (Some o) c w0) in
        (sync_emissions o = [] /\ _latestValue (pipe w1) = lv
           /\ log w1 = lg ++ subscribe_trace o nh)
        \/ (_obj (pipe w1) = Some o
            /\ In (_latestValue (pipe w1)) (sync_emissions o))).
      { intros o lv lr s nh lg w0 w1. unfold w1, w0.
        rewrite transform_unbound_some by reflexivity. cbv zeta. fields.
        pose proof (last_In (sync_emissions o) lv) as I.
        destruct (sync_emissions o) as [|x l] eqn:S.
        - left. destruct (sync_error o); cbn; auto.
        - right. specialize (I ltac:(discriminate)).
          destruct (sync_error o); fields; auto. }
      destruct (_obj (pipe w)) as [o|] eqn:H.
      * destruct (opt_obs_dec obj (Some o)) as [->|D].
        -- rewrite transform_bound_same by exact H.
           destruct (strict_equals _ _); left; reflexivity.
        -- destruct (_subscription (pipe w)) as [h|] eqn:Hs.
           ++ rewrite (transform_rebind _ _ _ _ c w H D Hs).
              destruct obj as [o'|].
              ** destruct (U o' JNull JNull None (next_handle w)
                             (log w ++ [EvUnsubscribe h]))
                   as [(S & L & G)|[B I]].
                 --- right; right; right. exists h. split; [reflexivity|].
                     split; [|exact L].
                     unfold new_pipe. rewrite G, !in_app_iff. cbn. auto.
                 --- right; right; left. exists o'. auto.
              ** rewrite transform_unbound_absent by reflexivity.
                 right; right; right. exists h. fields.
                 rewrite in_app_iff. cbn. auto.
           ++ rewrite (transform_rebind_null _ _ _ c w H D Hs). now left.
      * rewrite transform_unbound_fuel by exact H. destruct obj as [o'|].
        -- destruct w as [[lv lr s o] nh lg]. cbn in H. subst o.
           destruct (U o' lv lr s nh lg) as [(S & L & G)|[B I]].
           ++ left. exact L.
           ++ right; right; left. exists o'. auto.
        -- rewrite transform_unbound_absent by exact H. now left.
    + destruct (_subscription (pipe w)) as [h|] eqn:Hs.
      * rewrite (destroy_bound h c w Hs). right; right; right.
        exists h. fields. rewrite in_app_iff. cbn. auto.
      * rewrite destroy_unbound by exact Hs. now left.
    + cbn in Lg. destruct (settled_live w h R Lg) as [Hs P].
      destruct (_obj (pipe w)) as [o|] eqn:H.
      * destruct n as [v|e|].
        -- rewrite (deliver_next h o v c w P).
           rewrite next_callback_bound by exact H.
           right; left. exists h, v. auto.
        -- rewrite (deliver_error h o e c w P). now left.
        -- rewrite (deliver_complete h o c w P). now left.
      * rewrite deliver_unknown by exact P. now left.
  - intros h n c' N. apply notify_closed.
    destruct (live h (log w)) eqn:L; [|reflexivity].
    destruct (settled_live w h R L) as [Hs _]. contradiction.
  - intros h o v c' P D. rewrite (deliver_next h o v c' w P).
    now apply next_callback_stale.
Qed.

(** C7, the defect. The unchanged test of lines 68-70 is [===], under
    which [NaN] differs from itself: with [NaN] cached, [transform] with the
    bound observable wraps it, notes it as returned, and leaves the pipe in
    a state where the next call does the same, so an unchanged [NaN] is
    wrapped again on every call. *)
Theorem C7_nan_rewrapped (p : Observable) c w :
  _obj (pipe w) = Some p -> _latestValue (pipe w) = JNaN ->
  exists w',
    transform (Some p) c w = (w', Ok (Wrapped JNaN))
    /\ _obj (pipe w') = Some p
    /\ _latestValue (pipe w') = JNaN
    /\ _latestReturnedValue (pipe w') = JNaN
    /\ forall c', transform (Some p) c' w' = (w', Ok (Wrapped JNaN)).
Proof.
  intros H N. unfold transform. rewrite transform_bound_same by exact H.
  rewrite N. cbn [strict_equals]. eexists. split; [reflexivity|]. fields.
  repeat split; auto. intros c'.
  rewrite transform_bound_same by exact H. fields. rewrite N.
  cbn [strict_equals]. reflexivity.
Qed.

(** C8. When the producer signals an error, the error callback throws that
    very error and nothing catches it: a later error leaves the subscriber
    as thrown, with the pipe untouched, and an error during [subscribe]
    leaves [transform] itself as thrown.  The binding caches no further
    value: the subscription the error came through is ended, the pipe holds
    and makes no other one, so no subscription is live any more, and as long
    as the binding lasts (the same observable is rendered, rxjs delivers
    what it can) the cached value stays what it was. *)
Theorem C8_error_rethrown c w :
  reachable w ->
  (forall h e,
      live h (log w) = true ->
      exists w',
        notify h (ErrorN e) c w = (w', Throw (Thrown e))
        /\ pipe w' = pipe w
        /\ (forall h', live h' (log w') = false)
        /\ (forall ops,
              forallb (fun co => keeps_binding (_obj (pipe w')) (snd co)) ops
              = true ->
              _latestValue (pipe (run_ops ops w')) = _latestValue (pipe w')))
  /\ (forall (p : Observable) e,
        wf w -> _obj (pipe w) <> Some p -> sync_error p = Some e ->
        exists w',
          transform (Some p) c w = (w', Throw (Thrown e))
          /\ _obj (pipe w') = Some p
          /\ _latestValue (pipe w') = last (sync_emissions p) JNull
          /\ (forall h', live h' (log w') = false)
          /\ (forall ops,
                forallb (fun co => keeps_binding (Some p) (snd co)) ops
                = true ->
                _latestValue (pipe (run_ops ops w'))
                = _latestValue (pipe w'))).
Proof.
  intros R. pose proof (reachable_settled w R) as St. split.
  - intros h e L. destruct (settled_live w h St L) as [Hs P].
    destruct (_obj (pipe w)) as [o|] eqn:H.
    2:{ unfold live in L. rewrite P in L. discriminate. }
    rewrite (notify_live h (ErrorN e) c w L), (deliver_error h o e c w P).
    eexists. split; [reflexivity|]. fields. split; [reflexivity|].
    assert (NL : forall h',
               live h' (log w ++ [EvErrorSignalled h]) = false).
    { intros h'. destruct (live h' _) eqn:L'; [|reflexivity].
      apply live_snoc in L' as [L1 L2]; [|discriminate].
      destruct (settled_live w h' St L1) as [Hs' _].
      assert (h' = h) by congruence. subst h'.
      cbn in L2. rewrite Nat.eqb_refl in L2. discriminate. }
    split; [exact NL|].
    intros ops K.
    now apply (nothing_live_run ops
                 {| pipe := pipe w; next_handle := next_handle w;
                    log := log w ++ [EvErrorSignalled h] |}).
  - intros p e W D S.
    destruct (first_render_spec p c w W D) as (pre & E & _).
    rewrite S in E. cbv zeta in E. rewrite E.
    assert (St' : stuck (fst (transform (Some p) c w)) = true).
    { destruct (transform_from_wf (Some p) c w W)
        as [[_ [r Rr]]|(o & e' & _ & _ & _ & St' & _)]; [|exact St'].
      rewrite E in Rr. discriminate. }
    rewrite E in St'. cbn [fst] in St'.
    eexists. split; [reflexivity|]. fields.
    split; [reflexivity|]. split; [reflexivity|].
    assert (NL : forall h',
               live h' (pre ++ subscribe_trace p (next_handle w)) = false).
    { intros h'. destruct (live h' _) eqn:L'; [|reflexivity].
      destruct (settled_live _ h' (or_intror St') L') as [Hs' _].
      discriminate. }
    split; [exact NL|].
    intros ops K. now apply nothing_live_run.
Qed.

(** C10. The error callback throws and touches nothing: the four fields of
    the pipe keep their values, nothing is unsubscribed, and no refresh is
    requested, whichever subscription the error comes through. *)
Theorem C10_error_path_frame h e c w :
  error_callback e c w = (w, Throw (Thrown e))
  /\ pipe (fst (deliver h (ErrorN e) c w)) = pipe w
  /\ pipe (fst (notify h (ErrorN e) c w)) = pipe w
  /\ active_subs (log (fst (deliver h (ErrorN e) c w))) = active_subs (log w)
  /\ next_handle (fst (deliver h (ErrorN e) c w)) = next_handle w.
Proof.
  assert (D : pipe (fst (deliver h (ErrorN e) c w)) = pipe w).
  { unfold deliver. destruct (producer_of h (log w)); reflexivity. }
  repeat split; auto.
  - unfold notify. destruct (live h (log w)); [exact D|reflexivity].
  - unfold deliver. destruct (producer_of h (log w)); [|reflexivity].
    cbn. now rewrite active_subs_snoc.
  - unfold deliver. destruct (producer_of h (log w)); reflexivity.
Qed.

(** ** Further properties of the methods *)

(** X1. [transform] calls itself at most once: two levels of recursion give
    a result in every state and further levels change nothing; one level is
    too few exactly when the pipe is bound, holds a subscription and is
    given something else than the bound observable. *)
Theorem X1_transform_recursion_depth n obj c w :
  transform_rec (S (S n)) obj c w = transform obj c w
  /\ snd (transform obj c w) <> OutOfFuel
  /\ (snd (transform_rec 1 obj c w) = OutOfFuel <->
      exists o h,
        _obj (pipe w) = Some o /\ obj <> Some o
        /\ _subscription (pipe w) = Some h).
Proof.
  split; [apply transform_rec_fuel|]. split; [apply transform_total|].
  destruct (_obj (pipe w)) as [o|] eqn:H.
  - destruct (opt_obs_dec obj (Some o)) as [->|D].
    + rewrite transform_bound_same by exact H. split.
      * destruct (strict_equals _ _); discriminate.
      * intros (o' & h & E & D & _). congruence.
    + destruct (_subscription (pipe w)) as [h|] eqn:Hs.
      * rewrite (transform_rebind _ _ _ _ c w H D Hs). split; [|reflexivity].
        intros _. exists o, h. auto.
      * rewrite (transform_rebind_null _ _ _ c w H D Hs). split.
        -- discriminate.
        -- intros (o' & h & _ & _ & E). discriminate.
  - split.
    + intros E. now apply transform_unbound_total in E.
    + intros (o & h & E & _). discriminate.
Qed.

(** X2. In a well-formed world [transform] ends in one of two ways: it
    throws the error that the given observable signals while being
    subscribed, when the pipe is not bound to that observable yet; in every
    other case it returns a value.  [ngOnDestroy] returns normally. *)
Theorem X2_transform_outcome obj c w :
  wf w ->
  (forall o e,
      obj = Some o -> _obj (pipe w) <> Some o -> sync_error o = Some e ->
      snd (transform obj c w) = Throw (Thrown e))
  /\ ((forall o,
         obj = Some o -> _obj (pipe w) <> Some o -> sync_error o = None) ->
      exists r, snd (transform obj c w) = Ok r)
  /\ snd (ngOnDestroy c w) = Ok tt.
Proof.
  intros W. split; [|split].
  - intros o e -> D S.
    destruct (first_render_spec o c w W D) as (pre & E & _).
    now rewrite E, S.
  - intros N.
    destruct (transform_from_wf obj c w W)
      as [[_ R]|(o & e & E & D & S & _)]; [exact R|].
    rewrite (N o E D) in S. discriminate.
  - destruct (_subscription (pipe w)) as [h|] eqn:Hs.
    + now rewrite (destroy_bound h c w Hs).
    + now rewrite destroy_unbound.
Qed.

(** X3. [_dispose] does not test the subscription it unsubscribes: on a
    pipe that has a source but no subscription it fails on [null] before
    changing anything, and so does [transform] when given anything else than
    that source, while [ngOnDestroy], which tests first, does nothing, and
    [transform] with that same source still returns. *)
Theorem X3_dispose_without_subscription obj (o : Observable) c w :
  _obj (pipe w) = Some o ->
  _subscription (pipe w) = None ->
  obj <> Some o ->
  _dispose c w = (w, Throw TypeError)
  /\ transform obj c w = (w, Throw TypeError)
  /\ ngOnDestroy c w = (w, Ok tt)
  /\ exists r, snd (transform (Some o) c w) = Ok r.
Proof.
  intros H Hs D. split; [now apply dispose_null|].
  split; [unfold transform; now apply transform_rebind_null with (o := o)|].
  split; [now apply destroy_unbound|].
  unfold transform. rewrite transform_bound_same by exact H.
  destruct (strict_equals _ _); eexists; reflexivity.
Qed.

(** X4. In every reachable world a subscription that is still live (made,
    and neither unsubscribed, nor ended by an error, nor completed) is the
    one the pipe holds, and it was obtained from the observable the pipe is
    bound to: at most one subscription is live, and none is left live
    behind the pipe's back. *)
Theorem X4_single_live_subscription w h :
  reachable w -> live h (log w) = true ->
  _subscription (pipe w) = Some h
  /\ producer_of h (log w) = _obj (pipe w)
  /\ (forall h', live h' (log w) = true -> h' = h).
Proof.
  intros R L. apply reachable_settled in R.
  destruct (settled_live w h R L) as [Hs P].
  repeat split; auto.
  intros h' L'. destruct (settled_live w h' R L') as [Hs' _]. congruence.
Qed.

(** X5. Whenever [transform] returns, the value it hands back, wrapped or
    not, is the one noted as last returned, and that value is the cached
    latest value or strictly equal to it. *)
Theorem X5_returned_value_is_latest obj c w w' r :
  transform obj c w = (w', Ok r) ->
  unwrap r = _latestReturnedValue (pipe w')
  /\ (_latestReturnedValue (pipe w') = _latestValue (pipe w')
      \/ strict_equals (_latestValue (pipe w'))
           (_latestReturnedValue (pipe w')) = true).
Proof.
  assert (U : forall w0 w1 r1,
             _obj (pipe w0) = None ->
             transform_rec 1 obj c w0 = (w1, Ok r1) ->
             unwrap r1 = _latestReturnedValue (pipe w1)
             /\ (_latestReturnedValue (pipe w1) = _latestValue (pipe w1)
                 \/ strict_equals (_latestValue (pipe w1))
                      (_latestReturnedValue (pipe w1)) = true)).
  { intros w0 w1 r1 H0. destruct obj as [o|].
    - rewrite transform_unbound_some by exact H0. cbv zeta.
      destruct (sync_error o); [discriminate|].
      intros E. injection E as <- <-. cbn. auto.
    - rewrite transform_unbound_absent by exact H0.
      intros E. injection E as <- <-. cbn. auto. }
  unfold transform. destruct (_obj (pipe w)) as [o|] eqn:H.
  - destruct (opt_obs_dec obj (Some o)) as [->|D].
    + rewrite transform_bound_same by exact H.
      destruct (strict_equals _ _) eqn:Q; intros E; injection E as <- <-.
      * cbn. auto.
      * cbn. auto.
    + destruct (_subscription (pipe w)) as [h|] eqn:Hs.
      * rewrite (transform_rebind _ _ _ _ c w H D Hs). now apply U.
      * rewrite (transform_rebind_null _ _ _ c w H D Hs). discriminate.
  - rewrite transform_unbound_fuel by exact H. now apply U.
Qed.

(** X6. [transform(null)] is a teardown that returns [null]: it leaves a
    well-formed world exactly as [ngOnDestroy] does. *)
Theorem X6_render_absent_is_teardown c w :
  wf w ->
  transform None c w = (fst (ngOnDestroy c w), Ok (Plain JNull)).
Proof.
  intros W. unfold transform. destruct (_obj (pipe w)) as [o|] eqn:H.
  - destruct (wf_bound w o W H) as (h & Hs & _).
    assert (D : None <> Some o) by discriminate.
    rewrite (transform_rebind _ _ _ _ c w H D Hs).
    rewrite transform_unbound_absent by reflexivity.
    now rewrite (destroy_bound h c w Hs).
  - destruct (wf_unbound w W H) as [E _].
    rewrite transform_unbound_absent by exact H.
    rewrite unbound_absent_noop by assumption.
    rewrite destroy_unbound by (now rewrite E).
    now rewrite E.
Qed.


Lemma deliveries_bound (p : Observable) h vs : forall c w,
  _obj (pipe w) = Some p ->
  producer_of h (log w) = Some p ->
  for_each vs (fun v => deliver h (NextN v)) c w =
    for_each vs (next_callback p) c w.
Proof.
  induction vs as [|v vs IH]; intros c w H P; [reflexivity|].
  cbn [for_each]. unfold bind.
  rewrite (deliver_next h p v c w P).
  rewrite (next_callback_bound p v c w H).
  apply IH; fields; [exact H|].
  now rewrite producer_of_app, P.
Qed.

(** X8. Values delivered between two [transform] calls overwrite each
    other: after any number of deliveries through the held subscription
    only the last value is cached, one refresh has been requested per
    delivery, all inside the Angular zone, and the next [transform] hands
    back that last value or, when the value returned before is strictly
    equal to it, that earlier value. *)
Theorem X8_deliveries_conflate (p : Observable) h vs c c' w :
  wf w -> _obj (pipe w) = Some p -> _subscription (pipe w) = Some h ->
  let w' :=
    {| pipe := set_latestValue (last vs (_latestValue (pipe w))) (pipe w);
       next_handle := next_handle w;
       log := log w ++ repeat (EvMarkForCheck Tracked) (length vs) |} in
  for_each vs (fun v => deliver h (NextN v)) c w = (w', Ok tt)
  /\ exists r w'',
       transform (Some p) c' w' = (w'', Ok r)
       /\ (unwrap r = last vs (_latestValue (pipe w))
           \/ (unwrap r = _latestReturnedValue (pipe w)
               /\ strict_equals (last vs (_latestValue (pipe w)))
                    (unwrap r) = true)).
Proof.
  intros W H Hs w'.
  destruct (wf_bound w p W H) as (h' & Hs' & _ & P & _).
  assert (h' = h) by congruence. subst h'.
  split.
  - rewrite (deliveries_bound p h vs c w H P).
    now apply for_each_next_callback.
  - unfold transform. rewrite transform_bound_same by exact H.
    unfold w'. fields.
    destruct (strict_equals _ _) eqn:Q.
    + eexists _, _. split; [reflexivity|]. right. cbn. auto.
    + eexists _, _. split; [reflexivity|]. left. reflexivity.
Qed.

(** X9. After [ngOnDestroy] no delivery has any effect: whichever
    subscription a value comes through, it is neither cached nor followed
    by a refresh request. *)
Theorem X9_no_delivery_after_teardown h v c c' w :
  wf w ->
  deliver h (NextN v) c' (fst (ngOnDestroy c w))
  = (fst (ngOnDestroy c w), Ok tt).
Proof.
  intros W. pose proof (destroy_clears c w W) as Cl.
  destruct (producer_of h (log (fst (ngOnDestroy c w)))) as [o|] eqn:P.
  - rewrite (deliver_next h o v c' _ P).
    apply next_callback_stale. rewrite Cl. discriminate.
  - now apply deliver_unknown.
Qed.

(** X10. The zone a method or a callback is called from has no influence
    on what it does: [transform], [ngOnDestroy] and every delivery give the
    same result and the same world from either zone. *)
Theorem X10_zone_independent c c' w :
  (forall obj, transform obj c w = transform obj c' w)
  /\ ngOnDestroy c w = ngOnDestroy c' w
  /\ (forall h n, deliver h n c w = deliver h n c' w).
Proof.
  split; [|split].
  - intros obj. unfold transform. destruct (_obj (pipe w)) as [o|] eqn:H.
    + destruct (opt_obs_dec obj (Some o)) as [->|D].
      * now rewrite !transform_bound_same.
      * destruct (_subscription (pipe w)) as [h|] eqn:Hs.
        -- rewrite (transform_rebind _ _ _ _ c w H D Hs).
           rewrite (transform_rebind _ _ _ _ c' w H D Hs).
           destruct obj as [o'|].
           ++ now rewrite !transform_unbound_some.
           ++ now rewrite !transform_unbound_absent.
        -- rewrite (transform_rebind_null _ _ _ c w H D Hs).
           now rewrite (transform_rebind_null _ _ _ c' w H D Hs).
    + destruct obj as [o'|].
      * now rewrite !transform_unbound_some.
      * now rewrite !transform_unbound_absent.
  - destruct (_subscription (pipe w)) as [h|] eqn:Hs.
    + now rewrite !(destroy_bound h _ w Hs).
    + now rewrite !destroy_unbound.
  - intros h n. unfold deliver.
    destruct (producer_of h (log w)); [|reflexivity].
    destruct n; reflexivity.
Qed.

Lemma refresh_requests_app l1 l2 :
  refresh_requests (l1 ++ l2) = refresh_requests l1 + refresh_requests l2.
Proof. unfold refresh_requests. now rewrite filter_app, length_app. Qed.

Lemma refresh_requests_cons e l :
  refresh_requests (e :: l) =
    (if is_refresh e then 1 else 0) + refresh_requests l.
Proof. unfold refresh_requests. cbn. now destruct (is_refresh e). Qed.

Lemma refresh_requests_marks n :
  refresh_requests (repeat (EvMarkForCheck Tracked) n) = n.
Proof.
  unfold refresh_requests. induction n as [|n IH]; cbn; [reflexivity|].
  now rewrite IH.
Qed.

Lemma refresh_requests_subscribed o h :
  refresh_requests (subscribe_trace o h) = length (sync_emissions o).
Proof.
  unfold subscribe_trace. rewrite refresh_requests_cons.
  rewrite refresh_requests_app, refresh_requests_marks.
  destruct (sync_end o); cbn; lia.
Qed.

(** X11. A refresh is requested once for each value that gets cached and
    never otherwise: one per value pushed while [transform] subscribes to an
    observable it was not bound to, one per delivery that comes through a
    subscription to the bound observable, and none from [ngOnDestroy], from
    [transform] with the bound observable or with nothing, from a delivery
    that is dropped, from an error or from a completion. *)
Theorem X11_refresh_requests c op w :
  wf w ->
  refresh_requests (log (step c op w)) =
    refresh_requests (log w) +
    match op with
    | OpRender (Some o) =>
        if not_identical (Some o) (_obj (pipe w))
        then length (sync_emissions o) else 0
    | OpRender None => 0
    | OpDestroy => 0
    | OpDeliver h (NextN _) =>
        match producer_of h (log w) with
        | Some o => if not_identical (Some o) (_obj (pipe w)) then 0 else 1
        | None => 0
        end
    | OpDeliver _ (ErrorN _) => 0
    | OpDeliver _ CompleteN => 0
    end.
Proof.
  intros W. destruct op as [obj| |h n]; unfold step.
  - destruct obj as [o'|].
    + destruct (opt_obs_dec (_obj (pipe w)) (Some o')) as [E|D].
      * unfold transform. rewrite transform_bound_same by exact E.
        rewrite E, not_identical_same.
        destruct (strict_equals _ _); fields; lia.
      * assert (D' : Some o' <> _obj (pipe w)) by congruence.
        rewrite (proj2 (not_identical_true _ _) D').
        destruct (first_render_spec o' c w W D)
          as (pre & E & _ & [[_ ->]|(h & _ & ->)]);
          rewrite E; cbv zeta; destruct (sync_error o'); fields;
          rewrite !refresh_requests_app, refresh_requests_subscribed;
          cbn; lia.
    + unfold transform. destruct (_obj (pipe w)) as [o|] eqn:H.
      * destruct (wf_bound w o W H) as (h & Hs & _).
        assert (D : None <> Some o) by discriminate.
        rewrite (transform_rebind _ _ _ _ c w H D Hs).
        rewrite transform_unbound_absent by reflexivity. fields.
        rewrite refresh_requests_app. cbn. lia.
      * rewrite transform_unbound_absent by exact H. fields. lia.
  - destruct (_subscription (pipe w)) as [h|] eqn:Hs.
    + rewrite (destroy_bound h c w Hs). fields.
      rewrite refresh_requests_app. cbn. lia.
    + rewrite destroy_unbound by exact Hs. fields. lia.
  - destruct (producer_of h (log w)) as [o|] eqn:P.
    + destruct n as [v|e|].
      * rewrite (deliver_next h o v c w P).
        destruct (opt_obs_dec (_obj (pipe w)) (Some o)) as [E|D].
        -- rewrite next_callback_bound by exact E. fields.
           rewrite E, not_identical_same, refresh_requests_app.
           reflexivity.
        -- rewrite next_callback_stale by exact D. fields.
           assert (D' : Some o <> _obj (pipe w)) by congruence.
           rewrite (proj2 (not_identical_true _ _) D'). lia.
      * rewrite (deliver_error h o e c w P). fields.
        rewrite refresh_requests_app. cbn. lia.
      * rewrite (deliver_complete h o c w P). fields.
        rewrite refresh_requests_app. cbn. lia.
    + rewrite deliver_unknown by exact P. fields. destruct n; lia.
Qed.

(** X12. [transform] with the observable the pipe is bound to is a read:
    it subscribes to nothing, unsubscribes nothing, requests no refresh and
    leaves the source, the subscription and the cached value alone; at most
    the last returned value is brought up to date. *)
Theorem X12_render_bound_is_read (p : Observable) c w :
  _obj (pipe w) = Some p ->
  let w' := fst (transform (Some p) c w) in
  log w' = log w
  /\ next_handle w' = next_handle w
  /\ _obj (pipe w') = _obj (pipe w)
  /\ _subscription (pipe w') = _subscription (pipe w)
  /\ _latestValue (pipe w') = _latestValue (pipe w)
  /\ (is_wrapped_result (snd (transform (Some p) c w)) = false -> w' = w).
Proof.
  intros H w'. unfold w', transform.
  rewrite transform_bound_same by exact H.
  destruct (strict_equals _ _); cbn; repeat split; auto; discriminate.
Qed.

(** X13. With the pipe bound to [p] and a cached value other than [NaN],
    two [transform(p)] calls in a row, no delivery in between, hand back
    the same value, and the second call hands it back bare and leaves the
    pipe as the first call left it. *)
Theorem X13_unchanged_read (p : Observable) c1 c2 w :
  _obj (pipe w) = Some p ->
  _latestValue (pipe w) <> JNaN ->
  exists v w1,
    (transform (Some p) c1 w = (w1, Ok (Plain v))
     \/ transform (Some p) c1 w = (w1, Ok (Wrapped v)))
    /\ transform (Some p) c2 w1 = (w1, Ok (Plain v)).
Proof.
  intros H N. unfold transform.
  rewrite transform_bound_same by exact H.
  destruct (strict_equals (_latestValue (pipe w))
              (_latestReturnedValue (pipe w))) eqn:Q.
  - exists (_latestReturnedValue (pipe w)), w. split; [now left|].
    rewrite transform_bound_same by exact H. now rewrite Q.
  - eexists _, _. split; [right; reflexivity|].
    rewrite transform_bound_same by exact H. fields.
    now rewrite (strict_equals_refl _ N).
Qed.

(** X14. The subscription is present exactly when the source is: every
    operation keeps this, except a [transform] that subscribes to an
    observable which signals an error during the subscription. *)
Theorem X14_handle_iff_source_kept c op w :
  handle_iff_source (pipe w) ->
  (forall o, op = OpRender (Some o) -> _obj (pipe w) <> Some o ->
             sync_error o = None) ->
  handle_iff_source (pipe (step c op w)).
Proof.
  unfold handle_iff_source. intros I N.
  assert (Nw : handle_iff_source new_pipe)
    by (unfold handle_iff_source; cbn; tauto).
  assert (U : forall obj w0,
             _obj (pipe w0) = None -> _subscription (pipe w0) = None ->
             (forall o, obj = Some o -> sync_error o = None) ->
             handle_iff_source (pipe (fst (transform_rec 1 obj c w0)))).
  { intros [o|] w0 H0 S0 F.
    - rewrite transform_unbound_some by exact H0. cbv zeta.
      rewrite (F o eq_refl). cbn. split; discriminate.
    - rewrite transform_unbound_absent by exact H0. cbn.
      unfold handle_iff_source. cbn. now rewrite H0, S0. }
  destruct op as [obj| |h n]; unfold step.
  - unfold transform.
    destruct (_obj (pipe w)) as [o|] eqn:H.
    + destruct (opt_obs_dec obj (Some o)) as [->|D].
      * rewrite transform_bound_same by exact H.
        destruct (strict_equals _ _); cbn; rewrite ?H; exact I.
      * destruct (_subscription (pipe w)) as [h|] eqn:Hs.
        -- rewrite (transform_rebind _ _ _ _ c w H D Hs).
           apply U; [reflexivity|reflexivity|].
           intros o' ->. apply N; [reflexivity|congruence].
        -- rewrite (transform_rebind_null _ _ _ c w H D Hs). cbn.
           now rewrite H, Hs.
    + rewrite transform_unbound_fuel by exact H.
      apply U; [exact H|now apply I|].
      intros o' ->. apply N; [reflexivity|discriminate].
  - destruct (_subscription (pipe w)) as [h|] eqn:Hs.
    + rewrite (destroy_bound h c w Hs). exact Nw.
    + rewrite destroy_unbound by exact Hs. cbn. now rewrite Hs.
  - unfold deliver. destruct (producer_of h (log w)) as [o|]; [|exact I].
    destruct n as [v|e|]; [|exact I|exact I].
    destruct (opt_obs_dec (_obj (pipe w)) (Some o)) as [E|D].
    + rewrite next_callback_bound by exact E. exact I.
    + rewrite next_callback_stale by exact D. exact I.
Qed.

(** X15. [transform(p1)], which subscribes without an error, then
    [transform(p2)] with another observable: the subscription to [p1] is
    unsubscribed, which leaves no subscription active, and only then [p2]
    is subscribed and made the source; a value that the subscription to
    [p1] delivers afterwards changes nothing at all. *)
Theorem X15_rebinding_cancels_first (p1 p2 : Observable) v c1 c2 c3 w :
  wf w -> p1 <> p2 -> sync_error p1 = None ->
  let w1 := fst (transform (Some p1) c1 w) in
  let w2 := fst (transform (Some p2) c2 w1) in
  exists h1,
    _subscription (pipe w1) = Some h1
    /\ producer_of h1 (log w1) = Some p1
    /\ log w2 =
         log w1 ++ EvUnsubscribe h1 :: subscribe_trace p2 (next_handle w1)
    /\ active_subs (log w1 ++ [EvUnsubscribe h1]) = []
    /\ _obj (pipe w2) = Some p2
    /\ _subscription (pipe w2) =
         match sync_error p2 with
         | Some _ => None
         | None => Some (next_handle w1)
         end
    /\ h1 <> next_handle w1
    /\ deliver h1 (NextN v) c3 w2 = (w2, Ok tt)
    /\ next_callback p1 v c3 w2 = (w2, Ok tt).
Proof.
  intros W D S w1 w2.
  assert (W1 : wf w1 /\ _obj (pipe w1) = Some p1).
  { unfold w1.
    destruct (opt_obs_dec (_obj (pipe w)) (Some p1)) as [E|N].
    - unfold transform. rewrite transform_bound_same by exact E.
      destruct (strict_equals _ _); cbn; [now split|].
      split; [now apply wf_returned with (o := p1)|exact E].
    - destruct (first_render_spec p1 c1 w W N) as (pre & E & Wp & _).
      rewrite E, S. cbv zeta. fields. split; [|reflexivity].
      now apply (wf_subscribed _ p1 _ _ Wp). }
  destruct W1 as [W1 B1].
  destruct (wf_bound w1 p1 W1 B1) as (h1 & Hs & A & P & L).
  assert (D' : _obj (pipe w1) <> Some p2) by congruence.
  destruct (first_render_spec p2 c2 w1 W1 D')
    as (pre & E & _ & [[B _]|(h & Hs' & ->)]); [congruence|].
  assert (h = h1) by congruence. subst h.
  assert (O : _obj (pipe w2) = Some p2).
  { unfold w2. rewrite E. cbv zeta. now destruct (sync_error p2). }
  assert (S2 : next_callback p1 v c3 w2 = (w2, Ok tt)).
  { apply next_callback_stale. rewrite O. congruence. }
  assert (Lg : log w2 =
               log w1 ++ EvUnsubscribe h1
                 :: subscribe_trace p2 (next_handle w1)).
  { unfold w2. rewrite E. cbv zeta.
    destruct (sync_error p2); fields; now rewrite <- app_assoc. }
  exists h1. repeat split; auto.
  - rewrite active_subs_snoc, A. cbn. now rewrite Nat.eqb_refl.
  - unfold w2. rewrite E. cbv zeta. now destruct (sync_error p2).
  - lia.
  - rewrite deliver_next with (o := p1); [exact S2|].
    now rewrite Lg, producer_of_app, P.
Qed.

End Pipe.

(** ** The properties on concrete runs *)

Lemma C9_render_absent_unbound_witness :
  wf new_world /\ _obj (pipe new_world) = None
  /\ transform quiet open_ended None Tracked new_world
     = (new_world, Ok (Plain JNull))
  /\ _subscription (pipe new_world) = None
  /\ active_subs (log new_world) = [].
Proof.
  split; [reflexivity|]. split; [reflexivity|].
  apply (C9_render_absent_unbound quiet open_ended Tracked new_world);
    reflexivity.
Defined.

(** C1 as stated fails three times: a producer that pushes [1] while being
    subscribed makes the very first [transform] return [1]; a producer that
    signals an error while being subscribed makes it throw; and a producer
    that emits [null] later makes the next [transform] return it bare. *)
Lemma C1_counterexample :
  snd (transform (replaying (JNumber 1)) open_ended (Some 3) Tracked
         new_world)
    = Ok (Plain (JNumber 1))
  /\ snd (transform quiet (failing (JString "boom")) (Some 3) Tracked
            new_world)
     = Throw (Thrown (JString "boom"))
  /\ (let w1 := fst (transform quiet open_ended (Some 3) Tracked new_world) in
      let w2 := fst (notify 0 (NextN JNull) Untracked w1) in
      _subscription (pipe w1) = Some 0
      /\ live 0 (log w1) = true
      /\ snd (transform quiet open_ended (Some 3) Tracked w2)
         = Ok (Plain JNull)).
Proof. repeat split. Qed.

Lemma C1_first_render_then_emission_witness :
  wf new_world /\ _obj (pipe new_world) = None /\ quiet 3 = []
  /\ sync_error open_ended 3 = None
  /\ exists h w1 w3,
       transform quiet open_ended (Some 3) Tracked new_world
         = (w1, Ok (Plain JNull))
       /\ _subscription (pipe w1) = Some h
       /\ _obj (pipe w1) = Some 3
       /\ transform quiet open_ended (Some 3) Tracked
            (fst (deliver h (NextN (JNumber 42)) Untracked w1))
          = (w3, Ok (if strict_equals (JNumber 42) JNull
                     then Plain (JNumber 42) else Wrapped (JNumber 42)))
       /\ _latestValue (pipe w3) = JNumber 42
       /\ _latestReturnedValue (pipe w3) = JNumber 42.
Proof.
  split; [reflexivity|]. split; [reflexivity|]. split; [reflexivity|].
  split; [reflexivity|].
  apply (C1_first_render_then_emission quiet open_ended 3 (JNumber 42)
           Tracked Untracked Tracked new_world); reflexivity.
Defined.

Lemma C2_subscribe_outside_deliver_inside_witness :
  let w := step (replaying (JNumber 1)) open_ended Tracked
             (OpRender (Some 3)) new_world in
  reachable (replaying (JNumber 1)) open_ended w
  /\ log w = [EvSubscribe Untracked 3 0; EvMarkForCheck Tracked]
  /\ pending_in_zone (log w) = []
  /\ (forall c, In (EvMarkForCheck c) (log w) -> c = Tracked).
Proof.
  intros w.
  assert (R : reachable (replaying (JNumber 1)) open_ended w)
    by (apply reach_step, reach_new).
  split; [exact R|]. split; [reflexivity|].
  pose proof (C2_subscribe_outside_deliver_inside
                (replaying (JNumber 1)) open_ended w R)
    as (_ & _ & P & _ & K).
  split; [exact P|exact K].
Defined.

Lemma C3_rebinding_after_failed_subscribe_witness :
  let boom := JString "boom" in
  let w1 := fst (transform quiet (failing boom) (Some 3) Tracked new_world) in
  wf new_world /\ _obj (pipe new_world) <> Some 3
  /\ sync_error (failing boom) 3 = Some boom /\ 3 <> 4
  /\ snd (transform quiet (failing boom) (Some 3) Tracked new_world)
     = Throw (Thrown boom)
  /\ transform quiet (failing boom) (Some 4) Tracked w1
     = (w1, Throw TypeError)
  /\ _obj (pipe w1) = Some 3
  /\ _subscription (pipe w1) = None.
Proof.
  intros boom w1.
  assert (D : _obj (pipe new_world) <> Some 3) by (simpl; discriminate).
  assert (N : 3 <> 4) by lia.
  split; [reflexivity|]. split; [exact D|]. split; [reflexivity|].
  split; [exact N|].
  exact (C3_rebinding_after_failed_subscribe quiet (failing boom) 3 4 boom
           Tracked Tracked new_world eq_refl D eq_refl N).
Defined.

(** C4 as stated fails on its description of the render after a teardown:
    for a producer that pushes [1] while being subscribed that render
    returns [1], not the absent value. *)
Lemma C4_counterexample :
  let sync := replaying (JNumber 1) in
  let w1 := step sync open_ended Tracked (OpRender (Some 3)) new_world in
  let w2 := step sync open_ended Tracked OpDestroy w1 in
  _obj (pipe w1) = Some 3
  /\ pipe w2 = new_pipe
  /\ snd (transform sync open_ended (Some 3) Tracked w2)
     = Ok (Plain (JNumber 1)).
Proof. repeat split. Qed.

Lemma C4_teardown_witness :
  let w := step quiet open_ended Tracked (OpRender (Some 3)) new_world in
  wf w
  /\ ngOnDestroy Tracked w =
       ({| pipe := new_pipe;
           next_handle := 1;
           log := [EvSubscribe Untracked 3 0; EvUnsubscribe 0] |}, Ok tt)
  /\ (forall c1,
        ngOnDestroy c1 (fst (ngOnDestroy Tracked w))
        = (fst (ngOnDestroy Tracked w), Ok tt)).
Proof.
  intros w. assert (W : wf w) by reflexivity.
  split; [exact W|].
  pose proof (C4_teardown quiet open_ended Tracked w W)
    as (_ & _ & _ & _ & I).
  split; [reflexivity|exact I].
Defined.

Lemma C5_failed_subscribe_breaks_invariant_witness :
  let boom := JString "boom" in
  let w' := fst (transform quiet (failing boom) (Some 3) Tracked new_world) in
  wf new_world /\ _obj (pipe new_world) <> Some 3
  /\ sync_error (failing boom) 3 = Some boom
  /\ handle_iff_source (pipe new_world)
  /\ snd (transform quiet (failing boom) (Some 3) Tracked new_world)
     = Throw (Thrown boom)
  /\ _obj (pipe w') = Some 3
  /\ _subscription (pipe w') = None
  /\ ~ handle_iff_source (pipe w').
Proof.
  intros boom w'.
  assert (D : _obj (pipe new_world) <> Some 3) by (simpl; discriminate).
  split; [reflexivity|]. split; [exact D|]. split; [reflexivity|].
  exact (C5_failed_subscribe_breaks_invariant quiet (failing boom) 3 boom
           Tracked new_world eq_refl D eq_refl).
Defined.

Lemma C6_latest_value_writers_witness :
  let w1 := step quiet open_ended Tracked (OpRender (Some 7)) new_world in
  let w2 := step quiet open_ended Tracked OpDestroy w1 in
  let w := step quiet open_ended Tracked (OpRender (Some 7)) w2 in
  reachable quiet open_ended w
  /\ legal (OpDeliver 1 (NextN (JNumber 5))) w = true
  /\ _subscription (pipe w) = Some 1
  /\ _latestValue (pipe (step quiet open_ended Untracked
                           (OpDeliver 1 (NextN (JNumber 5))) w))
     = JNumber 5
  /\ notify 0 (NextN (JNumber 5)) Untracked w = (w, Ok tt).
Proof.
  intros w1 w2 w.
  assert (R : reachable quiet open_ended w)
    by (apply reach_step, reach_step, reach_step, reach_new).
  assert (L : legal (OpDeliver 1 (NextN (JNumber 5))) w = true)
    by reflexivity.
  assert (N : _subscription (pipe w) <> Some 0) by (simpl; discriminate).
  split; [exact R|]. split; [exact L|]. split; [reflexivity|].
  split; [reflexivity|].
  exact (proj1 (proj2 (C6_latest_value_writers quiet open_ended Untracked
                         (OpDeliver 1 (NextN (JNumber 5))) w R L))
           0 (NextN (JNumber 5)) Untracked N).
Defined.

Lemma C7_nan_rewrapped_witness :
  let w1 := fst (transform quiet open_ended (Some 3) Tracked new_world) in
  let w2 := fst (notify 0 (NextN JNaN) Untracked w1) in
  _obj (pipe w2) = Some 3 /\ _latestValue (pipe w2) = JNaN
  /\ exists w',
       transform quiet open_ended (Some 3) Tracked w2
         = (w', Ok (Wrapped JNaN))
       /\ _obj (pipe w') = Some 3
       /\ _latestValue (pipe w') = JNaN
       /\ _latestReturnedValue (pipe w') = JNaN
       /\ forall c',
            transform quiet open_ended (Some 3) c' w'
            = (w', Ok (Wrapped JNaN)).
Proof.
  intros w1 w2. split; [reflexivity|]. split; [reflexivity|].
  exact (C7_nan_rewrapped quiet open_ended 3 Tracked w2 eq_refl eq_refl).
Defined.

Lemma C8_error_rethrown_witness :
  let boom := JString "boom" in
  let w := step quiet open_ended Tracked (OpRender (Some 3)) new_world in
  reachable quiet open_ended w /\ live 0 (log w) = true
  /\ exists w',
       notify 0 (ErrorN boom) Untracked w = (w', Throw (Thrown boom))
       /\ pipe w' = pipe w
       /\ (forall h', live h' (log w') = false)
       /\ (forall ops,
             forallb (fun co => keeps_binding (_obj (pipe w')) (snd co)) ops
             = true ->
             _latestValue (pipe (run_ops quiet open_ended ops w'))
             = _latestValue (pipe w')).
Proof.
  intros boom w.
  assert (R : reachable quiet open_ended w) by (apply reach_step, reach_new).
  assert (L : live 0 (log w) = true) by reflexivity.
  split; [exact R|]. split; [exact L|].
  exact (proj1 (C8_error_rethrown quiet open_ended Untracked w R) 0 boom L).
Defined.

(** ** The further properties on concrete runs *)

Lemma X2_transform_outcome_witness :
  let boom := JString "boom" in
  let w := step quiet (failing boom) Tracked OpDestroy new_world in
  wf w
  /\ snd (transform quiet (failing boom) (Some 2) Tracked w)
     = Throw (Thrown boom)
  /\ snd (ngOnDestroy Tracked w) = Ok tt.
Proof.
  intros boom w. assert (W : wf w) by reflexivity.
  assert (D : _obj (pipe w) <> Some 2) by (simpl; discriminate).
  split; [exact W|].
  pose proof (X2_transform_outcome quiet (failing boom) (Some 2) Tracked w W)
    as (T & _ & N).
  split; [exact (T 2 boom eq_refl D eq_refl)|exact N].
Defined.

Lemma X3_dispose_without_subscription_witness :
  let boom := JString "boom" in
  let w := fst (transform quiet (failing boom) (Some 1) Tracked new_world) in
  _obj (pipe w) = Some 1 /\ _subscription (pipe w) = None
  /\ Some 2 <> Some 1
  /\ _dispose Tracked w = (w, Throw TypeError)
  /\ transform quiet (failing boom) (Some 2) Tracked w = (w, Throw TypeError)
  /\ ngOnDestroy Tracked w = (w, Ok tt)
  /\ exists r, snd (transform quiet (failing boom) (Some 1) Tracked w) = Ok r.
Proof.
  intros boom w.
  assert (D : Some 2 <> Some 1 :> option Observable) by discriminate.
  split; [reflexivity|]. split; [reflexivity|]. split; [exact D|].
  exact (X3_dispose_without_subscription quiet (failing boom) (Some 2) 1
           Tracked w eq_refl eq_refl D).
Defined.

Lemma X4_single_live_subscription_witness :
  let w1 := step quiet open_ended Tracked (OpRender (Some 1)) new_world in
  let w2 := step quiet open_ended Tracked (OpRender (Some 2)) w1 in
  reachable quiet open_ended w2 /\ live 1 (log w2) = true
  /\ _subscription (pipe w2) = Some 1
  /\ producer_of 1 (log w2) = _obj (pipe w2)
  /\ (forall h', live h' (log w2) = true -> h' = 1).
Proof.
  intros w1 w2.
  assert (R : reachable quiet open_ended w2)
    by (apply reach_step, reach_step, reach_new).
  assert (L : live 1 (log w2) = true) by reflexivity.
  split; [exact R|]. split; [exact L|].
  exact (X4_single_live_subscription quiet open_ended w2 1 R L).
Defined.

Lemma X5_returned_value_is_latest_witness :
  let w1 := fst (transform quiet open_ended (Some 3) Tracked new_world) in
  let w2 := fst (deliver 0 (NextN (JNumber 0)) Untracked w1) in
  let w3 := fst (transform quiet open_ended (Some 3) Tracked w2) in
  let w4 := fst (deliver 0 (NextN JNegZero) Untracked w3) in
  transform quiet open_ended (Some 3) Tracked w4
    = (w4, Ok (Plain (JNumber 0)))
  /\ unwrap (Plain (JNumber 0)) = _latestReturnedValue (pipe w4)
  /\ (_latestReturnedValue (pipe w4) = _latestValue (pipe w4)
      \/ strict_equals (_latestValue (pipe w4))
           (_latestReturnedValue (pipe w4)) = true).
Proof.
  intros w1 w2 w3 w4.
  assert (E : transform quiet open_ended (Some 3) Tracked w4
              = (w4, Ok (Plain (JNumber 0)))) by reflexivity.
  split; [exact E|].
  exact (X5_returned_value_is_latest quiet open_ended (Some 3) Tracked w4 w4
           (Plain (JNumber 0)) E).
Defined.

Lemma X6_render_absent_is_teardown_witness :
  let w := step quiet open_ended Tracked (OpRender (Some 1)) new_world in
  wf w
  /\ transform quiet open_ended None Tracked w
     = (fst (ngOnDestroy Tracked w), Ok (Plain JNull)).
Proof.
  intros w. assert (W : wf w) by reflexivity.
  split; [exact W|].
  exact (X6_render_absent_is_teardown quiet open_ended Tracked w W).
Defined.


Lemma X8_deliveries_conflate_witness :
  let w := step quiet open_ended Tracked (OpRender (Some 1)) new_world in
  let vs := [JNumber 1; JNumber 2; JNumber 3] in
  wf w /\ _obj (pipe w) = Some 1 /\ _subscription (pipe w) = Some 0
  /\ let w' :=
       {| pipe := set_latestValue (last vs (_latestValue (pipe w))) (pipe w);
          next_handle := next_handle w;
          log := log w ++ repeat (EvMarkForCheck Tracked) (length vs) |} in
     for_each vs (fun v => deliver 0 (NextN v)) Untracked w = (w', Ok tt)
     /\ exists r w'',
          transform quiet open_ended (Some 1) Tracked w' = (w'', Ok r)
          /\ (unwrap r = last vs (_latestValue (pipe w))
              \/ (unwrap r = _latestReturnedValue (pipe w)
                  /\ strict_equals (last vs (_latestValue (pipe w)))
                       (unwrap r) = true)).
Proof.
  intros w vs. assert (W : wf w) by reflexivity.
  split; [exact W|]. split; [reflexivity|]. split; [reflexivity|].
  exact (X8_deliveries_conflate quiet open_ended 1 0 vs Untracked Tracked w
           W eq_refl eq_refl).
Defined.

Lemma X9_no_delivery_after_teardown_witness :
  let w := step quiet open_ended Tracked (OpRender (Some 1)) new_world in
  wf w
  /\ deliver 0 (NextN (JNumber 5)) Untracked (fst (ngOnDestroy Tracked w))
     = (fst (ngOnDestroy Tracked w), Ok tt).
Proof.
  intros w. assert (W : wf w) by reflexivity.
  split; [exact W|].
  exact (X9_no_delivery_after_teardown 0 (JNumber 5) Tracked Untracked w W).
Defined.

Lemma X11_refresh_requests_witness :
  let sync := replaying (JNumber 1) in
  let w := step sync open_ended Tracked (OpRender (Some 1)) new_world in
  wf w
  /\ refresh_requests (log w) = 1
  /\ refresh_requests
       (log (step sync open_ended Untracked
               (OpDeliver 0 (NextN (JNumber 2))) w)) = 2
  /\ refresh_requests (log (step sync open_ended Tracked OpDestroy w)) = 1.
Proof.
  intros sync w. assert (W : wf w) by reflexivity.
  split; [exact W|]. split; [reflexivity|]. split.
  - exact (X11_refresh_requests sync open_ended Untracked
             (OpDeliver 0 (NextN (JNumber 2))) w W).
  - exact (X11_refresh_requests sync open_ended Tracked OpDestroy w W).
Defined.

Lemma X12_render_bound_is_read_witness :
  let w1 := fst (transform quiet open_ended (Some 3) Tracked new_world) in
  let w := fst (deliver 0 (NextN (JNumber 5)) Untracked w1) in
  _obj (pipe w) = Some 3
  /\ let w' := fst (transform quiet open_ended (Some 3) Tracked w) in
     log w' = log w
     /\ next_handle w' = next_handle w
     /\ _obj (pipe w') = _obj (pipe w)
     /\ _subscription (pipe w') = _subscription (pipe w)
     /\ _latestValue (pipe w') = _latestValue (pipe w)
     /\ (is_wrapped_result
           (snd (transform quiet open_ended (Some 3) Tracked w)) = false
         -> w' = w).
Proof.
  intros w1 w. split; [reflexivity|].
  exact (X12_render_bound_is_read quiet open_ended 3 Tracked w eq_refl).
Defined.

Lemma X13_unchanged_read_witness :
  let w1 := fst (transform quiet open_ended (Some 3) Tracked new_world) in
  let w2 := fst (deliver 0 (NextN (JNumber 5)) Untracked w1) in
  _obj (pipe w2) = Some 3 /\ _latestValue (pipe w2) <> JNaN
  /\ exists v w3,
       (transform quiet open_ended (Some 3) Tracked w2 = (w3, Ok (Plain v))
        \/ transform quiet open_ended (Some 3) Tracked w2
           = (w3, Ok (Wrapped v)))
       /\ transform quiet open_ended (Some 3) Tracked w3
          = (w3, Ok (Plain v)).
Proof.
  intros w1 w2.
  assert (B : _obj (pipe w2) = Some 3) by reflexivity.
  assert (N : _latestValue (pipe w2) <> JNaN) by (simpl; discriminate).
  split; [exact B|]. split; [exact N|].
  exact (X13_unchanged_read quiet open_ended 3 Tracked Tracked w2 B N).
Defined.

Lemma X14_handle_iff_source_kept_witness :
  handle_iff_source (pipe new_world)
  /\ handle_iff_source
       (pipe (step quiet open_ended Tracked (OpRender (Some 3)) new_world)).
Proof.
  assert (H : handle_iff_source (pipe new_world))
    by (unfold handle_iff_source; simpl; tauto).
  split; [exact H|].
  exact (X14_handle_iff_source_kept quiet open_ended Tracked
           (OpRender (Some 3)) new_world H (fun _ _ _ => eq_refl)).
Defined.

Lemma X15_rebinding_cancels_first_witness :
  wf new_world /\ 1 <> 2 /\ sync_error open_ended 1 = None
  /\ let w1 := fst (transform quiet open_ended (Some 1) Tracked new_world) in
     let w2 := fst (transform quiet open_ended (Some 2) Tracked w1) in
     exists h1,
       _subscription (pipe w1) = Some h1
       /\ producer_of h1 (log w1) = Some 1
       /\ log w2 =
            log w1 ++ EvUnsubscribe h1
              :: subscribe_trace quiet open_ended 2 (next_handle w1)
       /\ active_subs (log w1 ++ [EvUnsubscribe h1]) = []
       /\ _obj (pipe w2) = Some 2
       /\ _subscription (pipe w2) =
            match sync_error open_ended 2 with
            | Some _ => None
            | None => Some (next_handle w1)
            end
       /\ h1 <> next_handle w1
       /\ deliver h1 (NextN (JNumber 9)) Untracked w2 = (w2, Ok tt)
       /\ next_callback 1 (JNumber 9) Untracked w2 = (w2, Ok tt).
Proof.
  assert (N : 1 <> 2) by lia.
  split; [reflexivity|]. split; [exact N|]. split; [reflexivity|].
  exact (X15_rebinding_cancels_first quiet open_ended 1 2 (JNumber 9)
           Tracked Tracked Untracked new_world eq_refl N eq_refl).
Defined.
